(** * The persistence layer of the practice chatbot (src/database.py)

    A shallow embedding of [database.py]: the three tables, the SQL
    statements the helpers send through a psycopg2 cursor, the
    [get_db_connection] context manager, and the seven helper functions
    built on it.  The theorems settle what the specification states about
    session names, message ordering, the student registry and the
    connection scope.

    How the program is modelled:
    - a table is the list of its rows in insertion order; a query without
      [ORDER BY] returns rows in that order, and [ORDER BY] is a stable
      sort (PostgreSQL leaves the order of ties open; no theorem below
      sorts rows with equal keys);
    - a connection carries the writes of its transaction, which reach the
      tables at [commit]; a statement sees the committed rows and its own
      connection's writes;
    - what the environment decides is an argument: the value of
      [CURRENT_TIMESTAMP] ([now]), the token drawn by [uuid.uuid4()], and
      whether the server can be reached;
    - the key and foreign-key constraints come from the schema of the
      specification, the table definitions not being part of the sources;
      each such definition says so. *)

From Stdlib Require Import ZArith List String Ascii Bool Lia Arith.
From Stdlib Require Import DecimalString.
Import ListNotations.

Local Open Scope string_scope.
Local Open Scope list_scope.
Local Open Scope Z_scope.

(** ** Rows and tables *)

(** Timestamps are PostgreSQL timestamps: microseconds since the epoch. *)
Definition timestamp := Z.

Record student := mkStudent {
  st_student_id : Z;
  st_email : string;
  st_name : string;
  st_created_at : timestamp;
  st_last_login : timestamp
}.

Record session := mkSession {
  s_session_id : string;
  s_student_id : Z;
  s_ai_client_type : string;
  s_created_at : timestamp;
  s_status : string
}.

Record message := mkMessage {
  m_message_id : Z;
  m_session_id : string;
  m_sender_type : string;
  m_content : string;
  m_sequence_number : Z;
  m_created_at : timestamp
}.

(** A table is the list of its rows in insertion order. *)
Record db := mkDb {
  students : list student;
  sessions : list session;
  messages : list message
}.

Definition empty_db : db := mkDb [] [] [].

(** ** Transactions

    A connection holds the writes of its open transaction; they reach the
    tables at [commit] and are dropped by [rollback] or by [close]. *)

Inductive write :=
| InsertStudent (r : student)
| UpdateLastLogin (id : Z) (t : timestamp)
| InsertSession (r : session)
| InsertMessage (r : message).

Definition set_last_login (id : Z) (t : timestamp) (st : student) : student :=
  if st_student_id st =? id
  then mkStudent (st_student_id st) (st_email st) (st_name st) (st_created_at st) t
  else st.

Definition apply_write (d : db) (w : write) : db :=
  match w with
  | InsertStudent r => mkDb (students d ++ [r]) (sessions d) (messages d)
  | UpdateLastLogin id t =>
      mkDb (map (set_last_login id t) (students d)) (sessions d) (messages d)
  | InsertSession r => mkDb (students d) (sessions d ++ [r]) (messages d)
  | InsertMessage r => mkDb (students d) (sessions d) (messages d ++ [r])
  end.

Definition apply_writes (d : db) (ws : list write) : db :=
  fold_left apply_write ws d.

(** Modelled from the spec: the table definitions are not part of the
    sources.  The INSERT statements give no [student_id] and no
    [message_id], so the keys are drawn from the tables' sequences; as in
    PostgreSQL a sequence is not transactional: a value drawn is never
    given back. *)
Record sequences := mkSequences {
  students_seq : Z;
  messages_seq : Z
}.

(** The database server: the committed tables, the key sequences, the
    number of client connections currently open, and whether the server
    can be reached. *)
Record server := mkServer {
  tables : db;
  seqs : sequences;
  open_connections : nat;
  reachable : bool
}.

Definition empty_server : server := mkServer empty_db (mkSequences 0 0) 0 true.

Record connection := mkConnection {
  pending : list write
}.

(** What a statement on the connection sees: the committed rows and the
    connection's own writes. *)
Definition view (committed : db) (conn : connection) : db :=
  apply_writes committed (pending conn).

Definition set_tables (srv : server) (d : db) : server :=
  mkServer d (seqs srv) (open_connections srv) (reachable srv).

Definition set_seqs (srv : server) (sq : sequences) : server :=
  mkServer (tables srv) sq (open_connections srv) (reachable srv).

Definition set_open (srv : server) (n : nat) : server :=
  mkServer (tables srv) (seqs srv) n (reachable srv).

(** [psycopg2.connect]: fails when the server cannot be reached. *)
Definition connect (srv : server) : option (server * connection) :=
  if reachable srv
  then Some (set_open srv (S (open_connections srv)), mkConnection [])
  else None.

Definition commit (srv : server) (conn : connection) : server * connection :=
  (set_tables srv (view (tables srv) conn), mkConnection []).

Definition rollback (conn : connection) : connection := mkConnection [].

(** [conn.close()]: the connection is released; writes that were not
    committed are lost with it. *)
Definition close (srv : server) (conn : connection) : server :=
  set_open srv (Nat.pred (open_connections srv)).

(** ** Exceptions and the monad of a [with] body *)

Inductive exc :=
| OperationalError
| IntegrityError (constraint : string)
| ProgrammingError
| KeyboardInterrupt.

(** Python's [except Exception] does not catch [KeyboardInterrupt]. *)
Definition is_Exception (e : exc) : bool :=
  match e with
  | KeyboardInterrupt => false
  | _ => true
  end.

Inductive outcome (A : Type) :=
| Return (a : A)
| Raise (e : exc).
Arguments Return {A} a.
Arguments Raise {A} e.

(** The body of a [with get_db_connection() as conn] block.  It reads the
    committed tables, draws from the sequences and queues writes on its
    connection; it has no other way to touch the server.  When it raises,
    the writes it made so far are still pending on the connection. *)
Definition M (A : Type) : Type :=
  db -> sequences -> connection -> outcome A * sequences * connection.

Definition ret {A} (a : A) : M A := fun _ sq conn => (Return a, sq, conn).

Definition raise {A} (e : exc) : M A := fun _ sq conn => (Raise e, sq, conn).

Definition bind {A B} (m : M A) (k : A -> M B) : M B :=
  fun d sq conn =>
    match m d sq conn with
    | (Return a, sq', conn') => k a d sq' conn'
    | (Raise e, sq', conn') => (Raise e, sq', conn')
    end.

Notation "x <- m ;; k" := (bind m (fun x => k))
  (at level 61, m at next level, right associativity).
Notation "m ;;; k" := (bind m (fun _ => k))
  (at level 61, right associativity).

(** A query reads the view; a write statement queues a write. *)
Definition query {A} (q : db -> A) : M A :=
  fun d sq conn => (Return (q (view d conn)), sq, conn).

Definition queue (w : write) : M unit :=
  fun _ sq conn => (Return tt, sq, mkConnection (pending conn ++ [w])).

Definition check (ok : bool) (constraint : string) : M unit :=
  if ok then ret tt else raise (IntegrityError constraint).

(** Modelled from the spec: the defaults of the two key columns, see
    [sequences]. *)
Definition nextval_students : M Z :=
  fun _ sq conn =>
    let v := students_seq sq + 1 in
    (Return v, mkSequences v (messages_seq sq), conn).

Definition nextval_messages : M Z :=
  fun _ sq conn =>
    let v := messages_seq sq + 1 in
    (Return v, mkSequences (students_seq sq) v, conn).

(** ** The connection scope (database.py, get_db_connection)

<<
    conn = None
    try:
        conn = psycopg2.connect(DATABASE_URL, cursor_factory=RealDictCursor)
        yield conn
        conn.commit()
    except Exception as e:
        if conn:
            conn.rollback()
        raise e
    finally:
        if conn:
            conn.close()
>> *)
Definition get_db_connection {A} (body : M A) (srv : server) : outcome A * server :=
  match connect srv with
  | None =>
      (* conn is still None: nothing to roll back, nothing to close *)
      (Raise OperationalError, srv)
  | Some (srv1, conn) =>
      match body (tables srv1) (seqs srv1) conn with
      | (Return a, sq, conn2) =>
          let '(srv3, conn3) := commit (set_seqs srv1 sq) conn2 in
          (Return a, close srv3 conn3)
      | (Raise e, sq, conn2) =>
          let conn3 := if is_Exception e then rollback conn2 else conn2 in
          (Raise e, close (set_seqs srv1 sq) conn3)
      end
  end.

(** ** Formatting *)

(** Python's [str] on an integer, as used by the f-strings. *)
Definition str (n : Z) : string := NilZero.string_of_int (Z.to_int n).

Fixpoint zeros (n : nat) : string :=
  match n with
  | O => EmptyString
  | S n' => String "0" (zeros n')
  end.

(** [%02d]-style padding of a non-negative number. *)
Definition zfill (width : nat) (n : Z) : string :=
  let s := str n in
  String.append (zeros (width - String.length s)) s.

(** Day number (days since 1970-01-01) to proleptic Gregorian
    year, month, day. *)
Definition civil_from_days (days : Z) : Z * Z * Z :=
  let z := days + 719468 in
  let era := z / 146097 in
  let doe := z - era * 146097 in
  let yoe := (doe - doe / 1460 + doe / 36524 - doe / 146096) / 365 in
  let doy := doe - (365 * yoe + yoe / 4 - yoe / 100) in
  let mp := (5 * doy + 2) / 153 in
  let d := doy - (153 * mp + 2) / 5 + 1 in
  let m := if mp <? 10 then mp + 3 else mp - 9 in
  let y := yoe + era * 400 + (if m <=? 2 then 1 else 0) in
  (y, m, d).

(** [t.strftime("%Y-%m-%d %H:%M:%S")]: second precision, fixed width. *)
Definition strftime (t : timestamp) : string :=
  let secs := t / 1000000 in
  let '(y, m, d) := civil_from_days (secs / 86400) in
  let sod := secs mod 86400 in
  String.append (zfill 4 y) (String.append "-" (String.append (zfill 2 m)
    (String.append "-" (String.append (zfill 2 d) (String.append " "
    (String.append (zfill 2 (sod / 3600)) (String.append ":"
    (String.append (zfill 2 (sod mod 3600 / 60)) (String.append ":"
    (zfill 2 (sod mod 60))))))))))).

(** [f"Session-{n}"] *)
Definition fmt_session (n : Z) : string := String.append "Session-" (str n).

(** ** SQL building blocks *)

(** [ORDER BY]: a stable insertion sort under the given "comes no later
    than" test. *)
Fixpoint insert_by {A} (le : A -> A -> bool) (x : A) (l : list A) : list A :=
  match l with
  | [] => [x]
  | y :: l' => if le x y then x :: l else y :: insert_by le x l'
  end.

Definition order_by {A} (le : A -> A -> bool) (l : list A) : list A :=
  fold_right (insert_by le) [] l.

(** [COUNT( * )] *)
Definition count {A} (rows : list A) : Z := Z.of_nat (List.length rows).

(** [MAX(col)]: NULL on no rows. *)
Definition sql_max (vals : list Z) : option Z :=
  match vals with
  | [] => None
  | v :: vs => Some (fold_left Z.max vs v)
  end.

Definition coalesce (v : option Z) (dflt : Z) : Z :=
  match v with
  | Some x => x
  | None => dflt
  end.

(** [sessions s JOIN students st ON s.student_id = st.student_id] *)
Definition sessions_join_students (d : db) : list (session * student) :=
  flat_map
    (fun s => map (pair s)
                (filter (fun st => s_student_id s =? st_student_id st) (students d)))
    (sessions d).

(** [... LEFT JOIN messages m ON s.session_id = m.session_id]: a session
    without messages keeps one row, with a NULL message. *)
Definition left_join_messages (d : db) (rows : list (session * student))
  : list (session * student * option message) :=
  flat_map
    (fun '(s, st) =>
       match filter (fun m => String.eqb (s_session_id s) (m_session_id m)) (messages d) with
       | [] => [(s, st, None)]
       | ms => map (fun m => (s, st, Some m)) ms
       end)
    rows.

(** The grouping key of [get_user_sessions]:
    [GROUP BY s.session_id, s.ai_client_type, s.created_at]. *)
Definition gkey : Type := string * string * timestamp.

Definition gkey_of (s : session) : gkey :=
  (s_session_id s, s_ai_client_type s, s_created_at s).

Definition gkey_eqb (k1 k2 : gkey) : bool :=
  let '(i1, a1, c1) := k1 in
  let '(i2, a2, c2) := k2 in
  String.eqb i1 i2 && String.eqb a1 a2 && (c1 =? c2).

(** The distinct keys, in order of first appearance. *)
Fixpoint distinct_keys (ks : list gkey) : list gkey :=
  match ks with
  | [] => []
  | k :: ks' => k :: filter (fun k' => negb (gkey_eqb k k')) (distinct_keys ks')
  end.

Definition is_some {A} (o : option A) : bool :=
  match o with
  | Some _ => true
  | None => false
  end.

(** One output row per group, with [COUNT(m.message_id)]: the rows of the
    group whose message is not NULL. *)
Definition group_by_session (rows : list (session * student * option message))
  : list (gkey * Z) :=
  map
    (fun k =>
       (k, count (filter (fun '(s, _, m) => gkey_eqb k (gkey_of s) && is_some m) rows)))
    (distinct_keys (map (fun '(s, _, _) => gkey_of s) rows)).

(** ** The statements sent through the cursor *)

(** [SELECT student_id FROM students WHERE email = %s], then [fetchone]. *)
Definition select_student_id (email : string) (d : db) : option Z :=
  option_map st_student_id
    (find (fun st => String.eqb (st_email st) email) (students d)).

(** Modelled from the spec: the table definitions are not part of the
    sources; section 6 of the specification gives [student_id] as the
    primary key of [students] and [email] as UNIQUE.  The key is drawn from
    the table's sequence since the statement does not give one.

    [INSERT INTO students (email, name, created_at, last_login)
     VALUES (%s, %s, CURRENT_TIMESTAMP, CURRENT_TIMESTAMP)
     RETURNING student_id] *)
Definition insert_student (email name : string) (now : timestamp) : M Z :=
  id <- nextval_students ;;
  taken <- query (fun d => existsb (fun st => st_student_id st =? id) (students d)) ;;
  check (negb taken) "students_pkey" ;;;
  dup <- query (fun d => existsb (fun st => String.eqb (st_email st) email) (students d)) ;;
  check (negb dup) "students_email_key" ;;;
  queue (InsertStudent (mkStudent id email name now now)) ;;;
  ret id.

(** [SELECT COUNT( * ) as count FROM sessions WHERE student_id = %s] *)
Definition count_sessions (student_id : Z) (d : db) : Z :=
  count (filter (fun s => s_student_id s =? student_id) (sessions d)).

(** Modelled from the spec: the table definitions are not part of the
    sources; section 6 of the specification gives [session_id] as the
    primary key of [sessions] and [student_id] as a foreign key to
    [students].

    [INSERT INTO sessions (session_id, student_id, ai_client_type, created_at, status)
     VALUES (%s, %s, %s, CURRENT_TIMESTAMP, 'active')] *)
Definition insert_session (session_id : string) (student_id : Z)
    (ai_client_type : string) (now : timestamp) : M unit :=
  taken <- query (fun d =>
             existsb (fun s => String.eqb (s_session_id s) session_id) (sessions d)) ;;
  check (negb taken) "sessions_pkey" ;;;
  owner <- query (fun d => existsb (fun st => st_student_id st =? student_id) (students d)) ;;
  check owner "sessions_student_id_fkey" ;;;
  queue (InsertSession (mkSession session_id student_id ai_client_type now "active")).

(** [SELECT COALESCE(MAX(sequence_number), 0) + 1 as next_seq
     FROM messages WHERE session_id = %s] *)
Definition select_next_seq (session_id : string) (d : db) : Z :=
  coalesce
    (sql_max (map m_sequence_number
       (filter (fun m => String.eqb (m_session_id m) session_id) (messages d))))
    0 + 1.

(** Modelled from the spec: the table definitions are not part of the
    sources; section 6 of the specification gives [message_id] as the
    primary key of [messages] and [session_id] as a foreign key to
    [sessions]; no constraint is declared on
    [(session_id, sequence_number)].

    [INSERT INTO messages (session_id, sender_type, content, sequence_number, created_at)
     VALUES (%s, %s, %s, %s, CURRENT_TIMESTAMP)] *)
Definition insert_message (session_id sender_type content : string)
    (sequence_number : Z) (now : timestamp) : M unit :=
  id <- nextval_messages ;;
  taken <- query (fun d => existsb (fun m => m_message_id m =? id) (messages d)) ;;
  check (negb taken) "messages_pkey" ;;;
  parent <- query (fun d =>
              existsb (fun s => String.eqb (s_session_id s) session_id) (sessions d)) ;;
  check parent "messages_session_id_fkey" ;;;
  queue (InsertMessage (mkMessage id session_id sender_type content sequence_number now)).

(** [SELECT sender_type, content, created_at FROM messages
     WHERE session_id = %s ORDER BY sequence_number ASC] *)
Definition select_history (session_id : string) (d : db) : list message :=
  order_by (fun a b => m_sequence_number a <=? m_sequence_number b)
    (filter (fun m => String.eqb (m_session_id m) session_id) (messages d)).

(** The query of [get_user_sessions]: sessions joined with their student
    and, on the left, with their messages; restricted to the email; one row
    per session with its message count; [ORDER BY s.created_at DESC]. *)
Definition select_user_sessions (email : string) (d : db) : list (gkey * Z) :=
  order_by (fun a b => snd (fst b) <=? snd (fst a))
    (group_by_session
       (filter (fun '(_, st, _) => String.eqb (st_email st) email)
          (left_join_messages d (sessions_join_students d)))).

(** [SELECT 1 FROM sessions WHERE session_id = %s], then [fetchone]. *)
Definition select_one_session (session_id : string) (d : db) : option Z :=
  option_map (fun _ => 1)
    (find (fun s => String.eqb (s_session_id s) session_id) (sessions d)).

(** The query of [get_session_name], then [fetchone]: for the session with
    this id owned by the student with this email, its [created_at] and, as
    [session_number], the count of that student's sessions whose
    [created_at] is at or after it. *)
Definition select_session_number (session_id email : string) (d : db)
  : option (timestamp * Z) :=
  option_map
    (fun '(s, _) =>
       (s_created_at s,
        count (filter
                 (fun '(s2, st2) =>
                    String.eqb (st_email st2) email && (s_created_at s <=? s_created_at s2))
                 (sessions_join_students d))))
    (find
       (fun '(s, st) =>
          String.eqb (s_session_id s) session_id && String.eqb (st_email st) email)
       (sessions_join_students d)).

(** ** The helper functions of database.py

    [CURRENT_TIMESTAMP] is the time at which the call's transaction starts;
    it is the argument [now].  The token drawn by [uuid.uuid4()] is the
    argument [uuid4]. *)

Definition get_or_create_student (email name : string) (now : timestamp)
  : server -> outcome Z * server :=
  get_db_connection
    (result <- query (select_student_id email) ;;
     match result with
     | Some student_id =>
         queue (UpdateLastLogin student_id now) ;;;
         ret student_id
     | None =>
         insert_student email name now
     end).

Definition create_session (uuid4 : string) (student_id : Z) (ai_client_type : string)
    (now : timestamp) : server -> outcome (string * string) * server :=
  get_db_connection
    (let session_id := uuid4 in
     cnt <- query (count_sessions student_id) ;;
     let session_name := fmt_session (cnt + 1) in
     insert_session session_id student_id ai_client_type now ;;;
     ret (session_id, session_name)).

Definition save_message (session_id sender_type content : string) (now : timestamp)
  : server -> outcome unit * server :=
  get_db_connection
    (sequence_number <- query (select_next_seq session_id) ;;
     insert_message session_id sender_type content sequence_number now).

Record history_entry := mkEntry {
  role : string;
  content : string;
  timestamp_str : string
}.

Definition get_conversation_history (session_id : string)
  : server -> outcome (list history_entry) * server :=
  get_db_connection
    (msgs <- query (select_history session_id) ;;
     ret (map (fun msg => mkEntry (m_sender_type msg) (m_content msg)
                            (strftime (m_created_at msg)))
            msgs)).

Record session_info := mkInfo {
  session_id : string;
  session_name : string;
  created_at : string;
  message_count : Z
}.

(** [for idx, session in enumerate(sessions)] with
    [f"Session-{len(sessions) - idx}"]. *)
Fixpoint name_by_rank (total idx : Z) (rows : list (gkey * Z)) : list session_info :=
  match rows with
  | [] => []
  | (sid, _, created, msgs) :: rows' =>
      mkInfo sid (fmt_session (total - idx)) (strftime created) msgs
      :: name_by_rank total (idx + 1) rows'
  end.

Definition get_user_sessions (email : string)
  : server -> outcome (list session_info) * server :=
  get_db_connection
    (rows <- query (select_user_sessions email) ;;
     ret (name_by_rank (count rows) 0 rows)).

Definition session_exists (session_id : string) : server -> outcome bool * server :=
  get_db_connection
    (row <- query (select_one_session session_id) ;;
     ret (is_some row)).

Definition get_session_name (session_id email : string)
  : server -> outcome (option string) * server :=
  get_db_connection
    (result <- query (select_session_number session_id email) ;;
     match result with
     | Some (_, session_number) => ret (Some (fmt_session session_number))
     | None => ret None
     end).

(** ** Scenarios

    The sequential runs and the invariant the theorems speak about. *)

(** The rows of a session, in the order the table holds them. *)
Definition messages_of (sid : string) (d : db) : list message :=
  filter (fun m => String.eqb (m_session_id m) sid) (messages d).

(** The sessions of a student, in the order the table holds them. *)
Definition sessions_of (student_id : Z) (d : db) : list session :=
  filter (fun s => s_student_id s =? student_id) (sessions d).

(** What the declared keys and the sequences guarantee of every state the
    helpers can produce from the empty server. *)
Record wf (srv : server) : Prop := mkWf {
  wf_student_ids : NoDup (map st_student_id (students (tables srv)));
  wf_emails : NoDup (map st_email (students (tables srv)));
  wf_session_ids : NoDup (map s_session_id (sessions (tables srv)));
  wf_students_seq :
    Forall (fun st => st_student_id st <= students_seq (seqs srv))
      (students (tables srv));
  wf_messages_seq :
    Forall (fun m => m_message_id m <= messages_seq (seqs srv))
      (messages (tables srv));
  wf_messages_fk :
    Forall (fun m => In (m_session_id m) (map s_session_id (sessions (tables srv))))
      (messages (tables srv))
}.

(** [Z] counterpart of [seq]: [start, start+1, ...], [n] numbers. *)
Fixpoint zseq (start : Z) (n : nat) : list Z :=
  match n with
  | O => []
  | S n' => start :: zseq (start + 1) n'
  end.


(** One [create_session] call after the other for the same student. *)
Fixpoint create_sessions (student_id : Z) (reqs : list (string * string * timestamp))
    (srv : server) : list (outcome (string * string)) * server :=
  match reqs with
  | [] => ([], srv)
  | (uuid4, ai_client_type, now) :: rest =>
      let '(r, srv1) := create_session uuid4 student_id ai_client_type now srv in
      let '(rs, srv2) := create_sessions student_id rest srv1 in
      (r :: rs, srv2)
  end.

(** Timestamps that strictly increase from call to call. *)
Fixpoint increasing (ts : list timestamp) : Prop :=
  match ts with
  | [] => True
  | t :: ts' => Forall (fun t' => t < t') ts' /\ increasing ts'
  end.

(** A body that queues a student row and then fails on a key. *)
Definition failing_body : M Z :=
  queue (InsertStudent (mkStudent 7 "x@y.z" "X" 1 1)) ;;;
  raise (IntegrityError "students_pkey").

(** The row of the student with this email, if any. *)
Definition student_by_email (email : string) (d : db) : option student :=
  find (fun st => String.eqb (st_email st) email) (students d).

(** Two students; the first has two sessions, the second one. *)
Definition demo_students : server :=
  snd (get_or_create_student "bob@example.org" "Bob" 20
         (snd (get_or_create_student "ann@example.org" "Ann" 10 empty_server))).

Definition demo_server : server :=
  snd (create_session "c3" 2 "Jitesh" 50
         (snd (create_session "c2" 1 "Jitesh" 40
                 (snd (create_session "c1" 1 "Pritam" 30 demo_students))))).

(** What a stored message shows of the call that stored it. *)
Definition appended (m : message) : string * string * timestamp :=
  (m_sender_type m, m_content m, m_created_at m).

(** The dictionary [get_conversation_history] builds for a row. *)
Definition entry_of (msg : message) : history_entry :=
  mkEntry (m_sender_type msg) (m_content msg) (strftime (m_created_at msg)).


(** The rows one session contributes to the join of [get_user_sessions]
    once its student is known. *)
Definition joined_rows (d : db) (st : student) (s : session)
  : list (session * student * option message) :=
  match filter (fun m => String.eqb (s_session_id s) (m_session_id m)) (messages d) with
  | [] => [(s, st, None)]
  | ms => map (fun m => (s, st, Some m)) ms
  end.

(** Session ids paired with the names [Session-i], [Session-(i+1)], ... *)
Fixpoint names_from (i : Z) (ids : list string) : list (string * string) :=
  match ids with
  | [] => []
  | id :: ids' => (id, fmt_session i) :: names_from (i + 1) ids'
  end.

(** The id and the display name of a listed session. *)
Definition listed (info : session_info) : string * string :=
  (session_id info, session_name info).

(** The token of a creation request. *)
Definition token (req : string * string * timestamp) : string := fst (fst req).

Definition requested_at (req : string * string * timestamp) : timestamp := snd req.

(** The row [create_session] stores for a request. *)
Definition session_row (student_id : Z) (req : string * string * timestamp) : session :=
  let '(uuid4, ai_client_type, now) := req in
  mkSession uuid4 student_id ai_client_type now "active".

(** The number of messages stored for a session. *)
Definition message_total (d : db) (s : session) : Z :=
  count (filter (fun m => String.eqb (s_session_id s) (m_session_id m)) (messages d)).

(** The output row of the grouped query for a session. *)
Definition grouped_row (d : db) (s : session) : gkey * Z :=
  (gkey_of s, message_total d s).

(** ** [save_message] statement by statement

    The same function as a machine that performs one action of the source
    per step: open the connection, run the SELECT, run the INSERT, commit
    and close.  Two such machines stepped alternately against one server
    are two clients calling [save_message] at the same time, each
    statement seeing what is committed at the time it runs. *)

Record save_call := mkCall {
  call_session : string;
  call_sender : string;
  call_content : string;
  call_now : timestamp
}.

Inductive save_pc :=
| AtConnect
| AtSelect (conn : connection)
| AtInsert (conn : connection) (sequence_number : Z)
| AtCommit (conn : connection)
| Done (r : outcome unit).

(** The [except] and [finally] clauses of the scope. *)
Definition abort (e : exc) (sq : sequences) (conn : connection) (srv : server)
  : save_pc * server :=
  let conn' := if is_Exception e then rollback conn else conn in
  (Done (Raise e), close (set_seqs srv sq) conn').

Definition save_message_step (c : save_call) (pc : save_pc) (srv : server)
  : save_pc * server :=
  match pc with
  | AtConnect =>
      match connect srv with
      | None => (Done (Raise OperationalError), srv)
      | Some (srv1, conn) => (AtSelect conn, srv1)
      end
  | AtSelect conn =>
      match query (select_next_seq (call_session c)) (tables srv) (seqs srv) conn with
      | (Return n, sq, conn') => (AtInsert conn' n, set_seqs srv sq)
      | (Raise e, sq, conn') => abort e sq conn' srv
      end
  | AtInsert conn n =>
      match insert_message (call_session c) (call_sender c) (call_content c) n
              (call_now c) (tables srv) (seqs srv) conn with
      | (Return _, sq, conn') => (AtCommit conn', set_seqs srv sq)
      | (Raise e, sq, conn') => abort e sq conn' srv
      end
  | AtCommit conn =>
      let '(srv', conn') := commit srv conn in
      (Done (Return tt), close srv' conn')
  | Done r => (Done r, srv)
  end.

(** One client alone: the steps in program order. *)
Fixpoint save_message_steps (n : nat) (c : save_call) (pc : save_pc) (srv : server)
  : save_pc * server :=
  match n with
  | O => (pc, srv)
  | S n' =>
      let '(pc', srv') := save_message_step c pc srv in
      save_message_steps n' c pc' srv'
  end.

(** Two clients: [true] lets the first take its next step, [false] the
    second. *)
Fixpoint interleave (schedule : list bool) (c1 c2 : save_call)
    (pc1 pc2 : save_pc) (srv : server) : save_pc * save_pc * server :=
  match schedule with
  | [] => (pc1, pc2, srv)
  | true :: rest =>
      let '(pc1', srv') := save_message_step c1 pc1 srv in
      interleave rest c1 c2 pc1' pc2 srv'
  | false :: rest =>
      let '(pc2', srv') := save_message_step c2 pc2 srv in
      interleave rest c1 c2 pc1 pc2' srv'
  end.

(** Both clients run their SELECT before either runs its INSERT. *)
Definition racing_schedule : list bool :=
  [true; false; true; false; true; false; true; false].

Definition first_call : save_call := mkCall "c1" "user" "hello" 60.
Definition second_call : save_call := mkCall "c1" "assistant" "hi" 61.

(** Ann's row in the example states. *)
Definition ann : student := mkStudent 1 "ann@example.org" "Ann" 10 10.

(** Three requests for new sessions, and three messages; the second
    message has multi-byte characters and a line break. *)
Definition three_requests : list (string * string * timestamp) :=
  [("c1", "Pritam", 30); ("c2", "Jitesh", 40); ("c4", "Pritam", 45)].




(** Ann with her first two sessions, and nothing else. *)
Definition two_sessions : server :=
  snd (create_sessions 1 [("c1", "Pritam", 30); ("c2", "Jitesh", 40)] demo_students).

(** ** Histories of calls

    Any client activity is a list of calls of the helper functions, each
    with the time at which its transaction starts. *)

Inductive call :=
| GetOrCreateStudent (email name : string)
| CreateSession (uuid4 : string) (student_id : Z) (ai_client_type : string)
| SaveMessage (session_id sender_type content : string)
| GetConversationHistory (session_id : string)
| GetUserSessions (email : string)
| SessionExists (session_id : string)
| GetSessionName (session_id email : string).

Definition run_call (c : call) (now : timestamp) (srv : server) : server :=
  match c with
  | GetOrCreateStudent email name => snd (get_or_create_student email name now srv)
  | CreateSession uuid4 student_id ai => snd (create_session uuid4 student_id ai now srv)
  | SaveMessage sid sender text => snd (save_message sid sender text now srv)
  | GetConversationHistory sid => snd (get_conversation_history sid srv)
  | GetUserSessions email => snd (get_user_sessions email srv)
  | SessionExists sid => snd (session_exists sid srv)
  | GetSessionName sid email => snd (get_session_name sid email srv)
  end.

Fixpoint run (history : list (call * timestamp)) (srv : server) : server :=
  match history with
  | [] => srv
  | (c, now) :: rest => run rest (run_call c now srv)
  end.

(** Every session's messages are numbered 1, 2, ... in table order, and
    the history query returns them in that order. *)
Definition numbered (srv : server) : Prop :=
  forall sid,
    map m_sequence_number (messages_of sid (tables srv))
    = zseq 1 (List.length (messages_of sid (tables srv))) /\
    select_history sid (tables srv) = messages_of sid (tables srv).

(** ** The connection self-test (database.py, test_connection)

<<
    try:
        with get_db_connection() as conn:
            cursor = conn.cursor()
            cursor.execute("SELECT 1")
            print("... Database connection successful!")
            return True
    except Exception as e:
        print(f"... Database connection failed: {e}")
        return False
>>
    What is printed is kept as a list of lines; a line is one of the two
    messages, the second with the exception it reports. *)



(** The dictionaries [get_user_sessions] builds for sessions given oldest
    first, the first of them numbered [i]. *)
Fixpoint infos_from (d : db) (i : Z) (ss : list session) : list session_info :=
  match ss with
  | [] => []
  | s :: ss' =>
      mkInfo (s_session_id s) (fmt_session i) (strftime (s_created_at s))
        (count (messages_of (s_session_id s) d))
      :: infos_from d (i + 1) ss'
  end.

(** The example server after two messages in Ann's first session. *)
Definition demo_chat : server :=
  snd (save_message "c1" "assistant" "Not so well." 61
         (snd (save_message "c1" "user" "How are you?" 60 demo_server))).

(** What a row keeps when only [last_login] may change. *)
Definition same_student (st st' : student) : Prop :=
  st_student_id st' = st_student_id st /\ st_email st' = st_email st /\
  st_name st' = st_name st /\ st_created_at st' = st_created_at st.

(** * The Gradio front end (src/grado_frontend_tillDB&SP.py)

    The front end talks to the backend over HTTP.  A function of the front
    end is a tree of what it does to the outside: it ends with a value,
    lets an exception escape, sends a request and goes on with the reply,
    or (a generator) hands a chat history to the page and goes on.
    Strings are UTF-8 text.  Python's [str.lower] is taken as given. *)

Module Ui.

(** The values JSON carries, as Python has them after [response.json()]. *)
#[local] Unset Elimination Schemes.
Inductive pyval :=
| PyNone
| PyBool (b : bool)
| PyInt (n : Z)
| PyFloat (repr : string) (nonzero : bool)
| PyStr (s : string)
| PyList (items : list pyval)
| PyDict (fields : list (string * pyval)).
#[local] Set Elimination Schemes.

(** Python's truth value, as tested by [if x] and [not x]. *)
Definition truthy (v : pyval) : bool :=
  match v with
  | PyNone => false
  | PyBool b => b
  | PyInt n => negb (n =? 0)
  | PyFloat _ nonzero => nonzero
  | PyStr s => negb (String.eqb s "")
  | PyList items => match items with [] => false | _ => true end
  | PyDict fields => match fields with [] => false | _ => true end
  end.

(** [requests.get(url, params=..., timeout=...)] and
    [requests.post(url, json=..., timeout=...)]. *)
Inductive request :=
| Get (url : string) (params : list (string * pyval)) (timeout : Z)
| Post (url : string) (json : list (string * pyval)) (timeout : Z).

(** What [response.json()] gives: a dictionary; a value that is not a
    dictionary, for which subscripting with a key raises a TypeError (its
    text is carried); or no value, [json()] raising (its text is
    carried). *)
Inductive body :=
| BodyDict (fields : list (string * pyval))
| BodyOther (str_of_type_error : string)
| BodyInvalid (str_of_decode_error : string).

(** What a request comes back with: a response, or an exception, told
    apart the way the handlers tell them apart ([ConnectionError] first,
    then [Timeout], then any other [Exception], then what is not an
    [Exception]).  Exceptions carry their [str(e)]. *)
Inductive reply :=
| Response (status_code : Z) (text : string) (json : body)
| RaisedConnectionError (str_e : string)
| RaisedTimeout (str_e : string)
| RaisedException (str_e : string)
| RaisedBaseException.

(** An entry of the chat history: [{"role": ..., "content": ...}]. *)
Record chat_entry := mkChat {
  chat_role : string;
  chat_content : pyval
}.

Inductive ui (A : Type) : Type :=
| Done (a : A)
| Propagate
| Http (r : request) (k : reply -> ui A)
| Yield (snapshot : list chat_entry) (k : ui A).
Arguments Done {A} a.
Arguments Propagate {A}.
Arguments Http {A} r k.
Arguments Yield {A} snapshot k.

Fixpoint ui_bind {A B} (m : ui A) (f : A -> ui B) : ui B :=
  match m with
  | Done a => f a
  | Propagate => Propagate
  | Http r k => Http r (fun x => ui_bind (k x) f)
  | Yield h k => Yield h (ui_bind k f)
  end.

(** What can be seen from outside, and how a run ends. *)
Inductive event :=
| Sent (r : request)
| Showed (snapshot : list chat_entry).

Inductive ended (A : Type) :=
| Returned (a : A)
| Raised
| Waiting.
Arguments Returned {A} a.
Arguments Raised {A}.
Arguments Waiting {A}.

(** A run against the replies the network will give, in order. *)
Fixpoint perform {A} (m : ui A) (net : list reply) : list event * ended A :=
  match m with
  | Done a => ([], Returned a)
  | Propagate => ([], Raised)
  | Http r k =>
      match net with
      | [] => ([Sent r], Waiting)
      | x :: net' => let '(ev, e) := perform (k x) net' in (Sent r :: ev, e)
      end
  | Yield h k => let '(ev, e) := perform k net in (Showed h :: ev, e)
  end.

(** ** Strings *)

(** The white space of [str.strip()]: the code points U+0009..U+000D,
    U+001C..U+0020, U+0085, U+00A0, U+1680, U+2000..U+200A, U+2028, U+2029,
    U+202F, U+205F and U+3000, in their UTF-8 encoding of one, two or
    three bytes. *)
Definition is_space1 (a : ascii) : bool :=
  let n := nat_of_ascii a in
  (Nat.leb 9 n && Nat.leb n 13) || (Nat.leb 28 n && Nat.leb n 32).

Definition is_space2 (a b : ascii) : bool :=
  Nat.eqb (nat_of_ascii a) 194
  && (Nat.eqb (nat_of_ascii b) 133 || Nat.eqb (nat_of_ascii b) 160).

Definition is_space3 (a b c : ascii) : bool :=
  let x := nat_of_ascii a in
  let y := nat_of_ascii b in
  let z := nat_of_ascii c in
  (Nat.eqb x 225 && Nat.eqb y 154 && Nat.eqb z 128)
  || (Nat.eqb x 226 && Nat.eqb y 128
      && ((Nat.leb 128 z && Nat.leb z 138) || Nat.eqb z 168 || Nat.eqb z 169
          || Nat.eqb z 175))
  || (Nat.eqb x 226 && Nat.eqb y 129 && Nat.eqb z 159)
  || (Nat.eqb x 227 && Nat.eqb y 128 && Nat.eqb z 128).

(** White space taken off the front; with [back] the string is read from
    its end, so the bytes of a code point come last byte first. *)
Fixpoint strip_front (back : bool) (s : string) : string :=
  match s with
  | EmptyString => s
  | String a s1 =>
      if is_space1 a then strip_front back s1
      else
        match s1 with
        | EmptyString => s
        | String b s2 =>
            if (if back then is_space2 b a else is_space2 a b)
            then strip_front back s2
            else
              match s2 with
              | EmptyString => s
              | String c s3 =>
                  if (if back then is_space3 c b a else is_space3 a b c)
                  then strip_front back s3
                  else s
              end
        end
  end.

Definition string_rev (s : string) : string :=
  string_of_list_ascii (rev (list_ascii_of_string s)).

(** [s.strip()] *)
Definition strip (s : string) : string :=
  string_rev (strip_front true (string_rev (strip_front false s))).

(** [c in s] for a one-character ASCII string [c]. *)
Definition contains (c : ascii) (s : string) : bool :=
  existsb (Ascii.eqb c) (list_ascii_of_string s).

(** A string of white space only. *)
Inductive blank : string -> Prop :=
| blank_empty : blank EmptyString
| blank1 a s : is_space1 a = true -> blank s -> blank (String a s)
| blank2 a b s : is_space2 a b = true -> blank s -> blank (String a (String b s))
| blank3 a b c s :
    is_space3 a b c = true -> blank s -> blank (String a (String b (String c s))).

(** ** The module's state and what a handler gives back *)

Record ui_state := mkUi {
  current_user_id : pyval;
  current_session_id : pyval;
  current_session_name : pyval
}.

Definition initial_state : ui_state := mkUi PyNone PyNone PyNone.

(** The three outputs of [start_session]:
    [gr.update(visible=...)] for the login screen and for the chat screen,
    and the text of the login error. *)
Record screens := mkScreens {
  login_visible : bool;
  chat_visible : bool;
  login_error : string
}.

Definition API_BASE_URL : string := "http://localhost:8000".

(** [if error:] for an error message that is None or a string. *)
Definition is_error (error : option string) : bool :=
  match error with
  | Some e => negb (String.eqb e "")
  | None => false
  end.

Fixpoint lookup (key : string) (fields : list (string * pyval)) : option pyval :=
  match fields with
  | [] => None
  | (k, v) :: rest => if String.eqb k key then Some v else lookup key rest
  end.

(** ** API communication functions *)

(** check_backend_health: the bare [except] catches everything. *)
Definition check_backend_health : ui bool :=
  Http (Get (String.append API_BASE_URL "/") [] 2)
    (fun r =>
       match r with
       | Response status_code _ _ => Done (status_code =? 200)
       | _ => Done false
       end).

(** What the [except Exception as e] clause of a helper returns for each
    way [data[key1], data[key2]] and [response.json()] can fail; [str] of
    a KeyError is the key in quotes. *)
Definition key_error (key : string) : string :=
  String.append "Error: '" (String.append key "'").

Definition create_new_session (user_id name : string)
  : ui (pyval * pyval * option string) :=
  Http (Post (String.append API_BASE_URL "/sessions/new")
          [("user_id", PyStr user_id); ("name", PyStr name)] 5)
    (fun r =>
       match r with
       | Response status_code _ json =>
           if status_code =? 200 then
             match json with
             | BodyDict data =>
                 match lookup "session_id" data with
                 | None => Done (PyNone, PyNone, Some (key_error "session_id"))
                 | Some session_id =>
                     match lookup "session_name" data with
                     | None => Done (PyNone, PyNone, Some (key_error "session_name"))
                     | Some session_name => Done (session_id, session_name, None)
                     end
                 end
             | BodyOther e => Done (PyNone, PyNone, Some (String.append "Error: " e))
             | BodyInvalid e => Done (PyNone, PyNone, Some (String.append "Error: " e))
             end
           else Done (PyNone, PyNone, Some (String.append "Error: " (str status_code)))
       | RaisedConnectionError _ =>
           Done (PyNone, PyNone,
                 Some "Cannot connect to backend. Is the FastAPI server running?")
       | RaisedTimeout e => Done (PyNone, PyNone, Some (String.append "Error: " e))
       | RaisedException e => Done (PyNone, PyNone, Some (String.append "Error: " e))
       | RaisedBaseException => Propagate
       end).

Definition send_message_to_api (user_id session_id : pyval) (message : string)
  : ui (pyval * option string) :=
  Http (Post (String.append API_BASE_URL "/chat")
          [("user_id", user_id); ("session_id", session_id);
           ("message", PyStr message)] 30)
    (fun r =>
       match r with
       | Response status_code text json =>
           if status_code =? 200 then
             match json with
             | BodyDict data =>
                 match lookup "ai_response" data with
                 | None => Done (PyNone, Some (key_error "ai_response"))
                 | Some ai_response => Done (ai_response, None)
                 end
             | BodyOther e => Done (PyNone, Some (String.append "Error: " e))
             | BodyInvalid e => Done (PyNone, Some (String.append "Error: " e))
             end
           else
             Done (PyNone,
                   Some (String.append "Error: "
                           (String.append (str status_code) (String.append " - " text))))
       | RaisedConnectionError _ =>
           Done (PyNone, Some "Cannot connect to backend. Is the FastAPI server running?")
       | RaisedTimeout _ => Done (PyNone, Some "Request timed out. Please try again.")
       | RaisedException e => Done (PyNone, Some (String.append "Error: " e))
       | RaisedBaseException => Propagate
       end).

(** ** UI event handlers *)

Definition stay (message : string) : screens := mkScreens true false message.

Section Handlers.

(** Python's [str.lower]. *)
Variable str_lower : string -> string.

Definition start_session (email name : string) (st : ui_state)
  : ui (screens * ui_state) :=
  if String.eqb email "" || String.eqb (strip email) "" then
    Done (stay "Please enter your email", st)
  else if String.eqb name "" || String.eqb (strip name) "" then
    Done (stay "Please enter your name", st)
  else if negb (contains "@" email) || negb (contains "." email) then
    Done (stay "Please enter a valid email address", st)
  else
    ui_bind check_backend_health (fun healthy =>
      if negb healthy then
        Done (stay "⚠️ Backend server is not running! Please start the FastAPI server first.",
              st)
      else
        let user_id := str_lower (strip email) in
        let st1 := mkUi (PyStr user_id) (current_session_id st) (current_session_name st) in
        ui_bind (create_new_session user_id (strip name))
          (fun '(session_id, session_name, error) =>
             if is_error error then
               Done (stay (String.append "Error: "
                             (match error with Some e => e | None => "None" end)),
                     st1)
             else
               Done (mkScreens false true "",
                     mkUi (current_user_id st1) session_id session_name))).

End Handlers.

(** chat_with_pritam, a generator: every [yield history] hands the page
    the list as it is at that moment; the value at the end is the list the
    caller passed, as the appends have left it. *)
Definition chat_with_pritam (message : string) (history : list chat_entry)
    (st : ui_state) : ui (list chat_entry) :=
  if negb (truthy (current_user_id st)) || negb (truthy (current_session_id st)) then
    let h :=
      history ++ [mkChat "user" (PyStr message);
                  mkChat "assistant" (PyStr "Error: No active session")] in
    Yield h (Done h)
  else
    let h1 := history ++ [mkChat "user" (PyStr message)] in
    Yield h1
      (ui_bind
         (send_message_to_api (current_user_id st) (current_session_id st) message)
         (fun '(ai_response, error) =>
            if is_error error then
              let h2 :=
                h1 ++ [mkChat "assistant"
                         (PyStr (String.append "⚠️ Error: "
                                   (match error with Some e => e | None => "None" end)))] in
              Yield h2 (Done h2)
            else
              let h2 := h1 ++ [mkChat "assistant" ai_response] in
              Yield h2 (Done h2))).

(** [str.lower] on ASCII text. *)
Definition ascii_lower (s : string) : string :=
  string_of_list_ascii
    (map (fun a =>
            let n := nat_of_ascii a in
            if Nat.leb 65 n && Nat.leb n 90 then ascii_of_nat (n + 32) else a)
       (list_ascii_of_string s)).

End Ui.

(** * Properties *)

(** ** The connection scope *)

Lemma server_eta (srv : server) :
  mkServer (tables srv) (seqs srv) (open_connections srv) (reachable srv) = srv.
Proof. destruct srv; reflexivity. Qed.

(** What a call through the scope amounts to on a reachable server: the
    body runs on a fresh connection; its writes reach the tables exactly
    when it returns. *)
Lemma get_db_connection_run {A} (body : M A) (srv : server) :
  reachable srv = true ->
  get_db_connection body srv =
  match body (tables srv) (seqs srv) (mkConnection []) with
  | (Return a, sq, conn) =>
      (Return a,
       mkServer (apply_writes (tables srv) (pending conn)) sq
         (open_connections srv) true)
  | (Raise e, sq, _) =>
      (Raise e, mkServer (tables srv) sq (open_connections srv) true)
  end.
Proof.
  intros Hup. unfold get_db_connection, connect. rewrite Hup. cbn.
  destruct (body (tables srv) (seqs srv) (mkConnection [])) as [[[a | e] sq] conn]; cbn.
  - unfold close, set_open, set_tables, set_seqs, view; cbn. now rewrite Hup.
  - unfold close, set_open, set_seqs; cbn. now rewrite Hup.
Qed.

Lemma get_db_connection_down {A} (body : M A) (srv : server) :
  reachable srv = false ->
  get_db_connection body srv = (Raise OperationalError, srv).
Proof.
  intros Hdown. unfold get_db_connection, connect. now rewrite Hdown.
Qed.

(** A body that only reads leaves the server as it found it. *)
Lemma get_db_connection_read {A B} (q : db -> A) (f : A -> B) (srv : server) :
  reachable srv = true ->
  get_db_connection (x <- query q ;; ret (f x)) srv
  = (Return (f (q (tables srv))), srv).
Proof.
  intros Hup. rewrite get_db_connection_run by assumption. cbn.
  rewrite <- Hup. now rewrite server_eta.
Qed.

(** C6. [get_db_connection] commits the body's writes when the body
    completes normally; when the body raises it hands the same failure on
    and none of the body's writes reaches the tables; on either path the
    connection it opened is released again.  When no connection can be
    opened the failure is handed on with the server untouched. *)
Theorem get_db_connection_commit_rollback_release
    {A} (body : M A) (srv : server) (r : outcome A) (sq : sequences)
    (conn : connection) :
  body (tables srv) (seqs srv) (mkConnection []) = (r, sq, conn) ->
  (reachable srv = true ->
   exists srv',
     get_db_connection body srv = (r, srv') /\
     open_connections srv' = open_connections srv /\
     tables srv' =
       match r with
       | Return _ => apply_writes (tables srv) (pending conn)
       | Raise _ => tables srv
       end) /\
  (reachable srv = false ->
   get_db_connection body srv = (Raise OperationalError, srv)).
Proof.
  intros Hbody. split.
  - intros Hup. rewrite get_db_connection_run by assumption. rewrite Hbody.
    destruct r as [a | e]; eexists; repeat split; reflexivity.
  - apply get_db_connection_down.
Qed.

Lemma get_db_connection_commit_rollback_release_witness :
  (reachable empty_server = true ->
   exists srv',
     get_db_connection failing_body empty_server
       = (Raise (IntegrityError "students_pkey"), srv') /\
     open_connections srv' = open_connections empty_server /\
     tables srv' = tables empty_server) /\
  (reachable empty_server = false ->
   get_db_connection failing_body empty_server
     = (Raise OperationalError, empty_server)).
Proof.
  exact (get_db_connection_commit_rollback_release failing_body empty_server
           (Raise (IntegrityError "students_pkey")) (mkSequences 0 0)
           (mkConnection [InsertStudent (mkStudent 7 "x@y.z" "X" 1 1)])
           eq_refl).
Defined.

(** ** The example states *)

Lemma wf_empty_server : wf empty_server.
Proof. constructor; cbn; constructor. Qed.

Lemma wf_demo_students : wf demo_students.
Proof.
  constructor; vm_compute; repeat constructor; simpl; intuition discriminate.
Qed.

Lemma wf_demo_server : wf demo_server.
Proof.
  constructor; vm_compute; repeat constructor; simpl; intuition discriminate.
Qed.

(** ** Lookups that find nothing *)








(** ** The student registry *)

Lemma find_map_set_last_login (id : Z) (t : timestamp) (email : string)
    (l : list student) :
  find (fun st => String.eqb (st_email st) email) (map (set_last_login id t) l)
  = option_map (set_last_login id t)
      (find (fun st => String.eqb (st_email st) email) l).
Proof.
  induction l as [| a l IH]; cbn; [reflexivity |].
  replace (st_email (set_last_login id t a)) with (st_email a)
    by (unfold set_last_login; destruct (st_student_id a =? id); reflexivity).
  destruct (String.eqb (st_email a) email); [reflexivity | exact IH].
Qed.

Lemma find_app_none {A} (f : A -> bool) (l : list A) (x : A) :
  find f l = None -> find f (l ++ [x]) = if f x then Some x else None.
Proof.
  induction l as [| a l IH]; cbn; [reflexivity |].
  destruct (f a); [discriminate | exact IH].
Qed.

Lemma existsb_false_iff {A} (f : A -> bool) (l : list A) :
  existsb f l = false <-> forall x, In x l -> f x = false.
Proof.
  rewrite <- not_true_iff_false, existsb_exists. split.
  - intros H x Hx. apply not_true_iff_false. intros Hfx. apply H. now exists x.
  - intros H (x & Hx & Hfx). rewrite (H x Hx) in Hfx. discriminate.
Qed.

Lemma select_student_id_by_email (email : string) (d : db) :
  select_student_id email d = option_map st_student_id (student_by_email email d).
Proof. reflexivity. Qed.

(** A returning student: the stored row keeps everything but [last_login]. *)
Lemma get_or_create_student_found (email name : string) (now : timestamp)
    (srv : server) (st : student) :
  reachable srv = true ->
  student_by_email email (tables srv) = Some st ->
  get_or_create_student email name now srv
  = (Return (st_student_id st),
     set_tables srv (apply_write (tables srv) (UpdateLastLogin (st_student_id st) now))).
Proof.
  intros Hup Hfound. unfold get_or_create_student.
  rewrite get_db_connection_run by assumption.
  cbn. unfold query, bind, view; cbn.
  rewrite select_student_id_by_email, Hfound. cbn.
  unfold set_tables. now rewrite Hup.
Qed.

(** First contact: one row is added, keyed by the next sequence value. *)
Lemma get_or_create_student_new (email name : string) (now : timestamp)
    (srv : server) :
  reachable srv = true ->
  wf srv ->
  student_by_email email (tables srv) = None ->
  let id := students_seq (seqs srv) + 1 in
  get_or_create_student email name now srv
  = (Return id,
     mkServer (apply_write (tables srv) (InsertStudent (mkStudent id email name now now)))
       (mkSequences id (messages_seq (seqs srv)))
       (open_connections srv) true).
Proof.
  intros Hup Hwf Hnew id. unfold get_or_create_student.
  rewrite get_db_connection_run by assumption.
  cbn. unfold query, bind, view; cbn.
  rewrite select_student_id_by_email, Hnew. cbn.
  unfold insert_student, bind, nextval_students, query, view; cbn.
  fold id.
  replace (existsb (fun st => st_student_id st =? id) (students (tables srv)))
    with false.
  2:{ symmetry. apply existsb_false_iff. intros st Hst. apply Z.eqb_neq.
      pose proof (wf_students_seq srv Hwf) as Hseq.
      rewrite Forall_forall in Hseq. specialize (Hseq st Hst). unfold id. lia. }
  cbn.
  replace (existsb (fun st => String.eqb (st_email st) email) (students (tables srv)))
    with false.
  2:{ symmetry. apply existsb_false_iff. intros st Hst.
      unfold student_by_email in Hnew. now apply (find_none _ _ Hnew). }
  reflexivity.
Qed.

(** Whatever the email, a call on a reachable server returns the id of a
    student that is registered under that email afterwards, with the time
    of the call as [last_login]. *)
Lemma get_or_create_student_registers (email name : string) (now : timestamp)
    (srv : server) :
  reachable srv = true ->
  wf srv ->
  exists id srv' st,
    get_or_create_student email name now srv = (Return id, srv') /\
    reachable srv' = true /\
    student_by_email email (tables srv') = Some st /\
    st_student_id st = id /\ st_last_login st = now.
Proof.
  intros Hup Hwf.
  destruct (student_by_email email (tables srv)) as [st |] eqn:Hlook.
  - exists (st_student_id st),
      (set_tables srv (apply_write (tables srv) (UpdateLastLogin (st_student_id st) now))),
      (set_last_login (st_student_id st) now st).
    split; [now apply get_or_create_student_found |].
    split; [exact Hup |].
    unfold student_by_email in *; cbn.
    rewrite find_map_set_last_login, Hlook. cbn.
    unfold set_last_login. rewrite Z.eqb_refl. cbn. auto.
  - eexists _, _, (mkStudent (students_seq (seqs srv) + 1) email name now now).
    split; [now apply get_or_create_student_new |].
    split; [reflexivity |].
    unfold student_by_email in *; cbn.
    rewrite find_app_none by assumption. cbn. rewrite String.eqb_refl. auto.
Qed.






(** ** The invariant of the tables *)

Lemma map_id_set_last_login (id : Z) (t : timestamp) (l : list student) :
  map st_student_id (map (set_last_login id t) l) = map st_student_id l.
Proof.
  rewrite map_map. apply map_ext. intros st. unfold set_last_login.
  destruct (st_student_id st =? id); reflexivity.
Qed.

Lemma map_email_set_last_login (id : Z) (t : timestamp) (l : list student) :
  map st_email (map (set_last_login id t) l) = map st_email l.
Proof.
  rewrite map_map. apply map_ext. intros st. unfold set_last_login.
  destruct (st_student_id st =? id); reflexivity.
Qed.

Lemma NoDup_snoc {A} (l : list A) (x : A) :
  NoDup l -> ~ In x l -> NoDup (l ++ [x]).
Proof.
  intros Hl Hx. induction Hl as [| a l Ha Hl IH]; cbn.
  - constructor; [intros [] | constructor].
  - constructor.
    + rewrite in_app_iff. intros [Hin | [Heq | []]]; [now apply Ha |].
      apply Hx. now left.
    + apply IH. intros Hin. apply Hx. now right.
Qed.

Lemma wf_update_last_login (srv : server) (id : Z) (t : timestamp) :
  wf srv ->
  wf (set_tables srv (apply_write (tables srv) (UpdateLastLogin id t))).
Proof.
  intros [Hids Hemails Hsids Hsseq Hmseq Hfk].
  constructor; cbn; try assumption.
  - now rewrite map_id_set_last_login.
  - now rewrite map_email_set_last_login.
  - rewrite Forall_forall in *. intros st Hst. apply in_map_iff in Hst.
    destruct Hst as (st0 & <- & Hst0). specialize (Hsseq st0 Hst0).
    unfold set_last_login. destruct (st_student_id st0 =? id); exact Hsseq.
Qed.

Lemma wf_insert_student (srv : server) (email name : string) (now : timestamp) :
  wf srv ->
  student_by_email email (tables srv) = None ->
  let id := students_seq (seqs srv) + 1 in
  wf (mkServer (apply_write (tables srv) (InsertStudent (mkStudent id email name now now)))
        (mkSequences id (messages_seq (seqs srv)))
        (open_connections srv) true).
Proof.
  intros [Hids Hemails Hsids Hsseq Hmseq Hfk] Hnew id.
  constructor; cbn; try assumption.
  - rewrite map_app. apply NoDup_snoc; [assumption |].
    intros Hin. apply in_map_iff in Hin. destruct Hin as (st & Heq & Hst).
    rewrite Forall_forall in Hsseq. specialize (Hsseq st Hst). cbn in Heq. lia.
  - rewrite map_app. apply NoDup_snoc; [assumption |].
    intros Hin. apply in_map_iff in Hin. destruct Hin as (st & Heq & Hst).
    pose proof (find_none _ _ Hnew st Hst) as Hne. cbn in Hne.
    apply String.eqb_neq in Hne. contradiction.
  - apply Forall_app. split.
    + eapply Forall_impl; [| exact Hsseq]. cbn. intros st Hst. unfold id. lia.
    + constructor; [cbn; lia | constructor].
Qed.

Lemma wf_insert_session (srv : server) (r : session) :
  wf srv ->
  ~ In (s_session_id r) (map s_session_id (sessions (tables srv))) ->
  wf (set_tables srv (apply_write (tables srv) (InsertSession r))).
Proof.
  intros [Hids Hemails Hsids Hsseq Hmseq Hfk] Hfresh.
  constructor; cbn; try assumption.
  - rewrite map_app. now apply NoDup_snoc.
  - eapply Forall_impl; [| exact Hfk]. cbn. intros m Hm.
    rewrite map_app, in_app_iff. now left.
Qed.

Lemma wf_insert_message (srv : server) (sid sender text : string) (n : Z)
    (now : timestamp) :
  wf srv ->
  In sid (map s_session_id (sessions (tables srv))) ->
  let id := messages_seq (seqs srv) + 1 in
  wf (mkServer (apply_write (tables srv) (InsertMessage (mkMessage id sid sender text n now)))
        (mkSequences (students_seq (seqs srv)) id)
        (open_connections srv) true).
Proof.
  intros [Hids Hemails Hsids Hsseq Hmseq Hfk] Hsid id.
  constructor; cbn; try assumption.
  - apply Forall_app. split.
    + eapply Forall_impl; [| exact Hmseq]. cbn. intros m Hm. unfold id. lia.
    + constructor; [cbn; lia | constructor].
  - apply Forall_app. split; [assumption |].
    constructor; [exact Hsid | constructor].
Qed.

(** ** What the two writers do when they succeed *)

Lemma existsb_session_id (sid : string) (l : list session) :
  existsb (fun s => String.eqb (s_session_id s) sid) l = true
  <-> In sid (map s_session_id l).
Proof.
  rewrite existsb_exists, in_map_iff. split.
  - intros (s & Hs & Heq). apply String.eqb_eq in Heq. now exists s.
  - intros (s & Heq & Hs). exists s. split; [assumption |]. now apply String.eqb_eq.
Qed.

Lemma save_message_ok (sid sender text : string) (now : timestamp) (srv : server) :
  reachable srv = true ->
  wf srv ->
  In sid (map s_session_id (sessions (tables srv))) ->
  save_message sid sender text now srv
  = (Return tt,
     mkServer
       (apply_write (tables srv)
          (InsertMessage (mkMessage (messages_seq (seqs srv) + 1) sid sender text
                            (select_next_seq sid (tables srv)) now)))
       (mkSequences (students_seq (seqs srv)) (messages_seq (seqs srv) + 1))
       (open_connections srv) true).
Proof.
  intros Hup Hwf Hsid. unfold save_message.
  rewrite get_db_connection_run by assumption.
  cbn. unfold query, bind, view, insert_message, nextval_messages; cbn.
  unfold bind, query, view; cbn.
  replace (existsb (fun m => m_message_id m =? messages_seq (seqs srv) + 1)
             (messages (tables srv))) with false.
  2:{ symmetry. apply existsb_false_iff. intros m Hm. apply Z.eqb_neq.
      pose proof (wf_messages_seq srv Hwf) as Hseq.
      rewrite Forall_forall in Hseq. specialize (Hseq m Hm). lia. }
  cbn.
  apply existsb_session_id in Hsid. rewrite Hsid. reflexivity.
Qed.

Lemma create_session_ok (uuid4 : string) (student_id : Z) (ai_client_type : string)
    (now : timestamp) (srv : server) :
  reachable srv = true ->
  ~ In uuid4 (map s_session_id (sessions (tables srv))) ->
  In student_id (map st_student_id (students (tables srv))) ->
  create_session uuid4 student_id ai_client_type now srv
  = (Return (uuid4, fmt_session (count (sessions_of student_id (tables srv)) + 1)),
     set_tables srv
       (apply_write (tables srv)
          (InsertSession (mkSession uuid4 student_id ai_client_type now "active")))).
Proof.
  intros Hup Hfresh Hstudent. unfold create_session.
  rewrite get_db_connection_run by assumption.
  cbn. unfold query, bind, view, insert_session; cbn.
  unfold bind, query, view; cbn.
  replace (existsb (fun s => String.eqb (s_session_id s) uuid4) (sessions (tables srv)))
    with false.
  2:{ symmetry. apply not_true_iff_false. intros Hex.
      apply existsb_session_id in Hex. contradiction. }
  cbn.
  replace (existsb (fun st => st_student_id st =? student_id) (students (tables srv)))
    with true.
  2:{ symmetry. apply existsb_exists. apply in_map_iff in Hstudent.
      destruct Hstudent as (st & Heq & Hst). exists st. split; [assumption |].
      now apply Z.eqb_eq. }
  cbn. unfold set_tables, count_sessions, sessions_of. now rewrite Hup.
Qed.

(** ** The message log *)

Section OrderBy.
Context {A : Type} (le : A -> A -> bool).

Lemma insert_by_snoc (y x : A) (s : list A) :
  le y x = true ->
  insert_by le y (s ++ [x]) = insert_by le y s ++ [x].
Proof.
  intros Hyx. induction s as [| z s IH]; cbn.
  - now rewrite Hyx.
  - destruct (le y z); [reflexivity |]. now rewrite IH.
Qed.

(** A row that every earlier row may precede is placed last. *)
Lemma order_by_snoc (l : list A) (x : A) :
  (forall y, In y l -> le y x = true) ->
  order_by le (l ++ [x]) = order_by le l ++ [x].
Proof.
  intros Hle. induction l as [| a l IH]; cbn; [reflexivity |].
  unfold order_by in IH. rewrite IH by (intros y Hy; apply Hle; now right).
  apply insert_by_snoc. apply Hle. now left.
Qed.

Lemma insert_by_last (x : A) (l : list A) :
  (forall y, In y l -> le x y = false) ->
  insert_by le x l = l ++ [x].
Proof.
  intros Hgt. induction l as [| y l IH]; cbn; [reflexivity |].
  rewrite (Hgt y (or_introl eq_refl)). rewrite IH; [reflexivity |].
  intros z Hz. apply Hgt. now right.
Qed.
End OrderBy.

Lemma fold_left_max_ge (vs : list Z) (a : Z) :
  a <= fold_left Z.max vs a /\ forall v, In v vs -> v <= fold_left Z.max vs a.
Proof.
  revert a. induction vs as [| b vs IH]; intros a; cbn.
  - split; [lia | intros v []].
  - destruct (IH (Z.max a b)) as [Hacc Hall]. split; [lia |].
    intros v [<- | Hv]; [lia | now apply Hall].
Qed.

(** [MAX] bounds every value it ranges over. *)
Lemma sql_max_ge (vs : list Z) (v : Z) :
  In v vs -> v <= coalesce (sql_max vs) 0.
Proof.
  destruct vs as [| a vs]; [intros [] |]. cbn.
  destruct (fold_left_max_ge vs a) as [Hacc Hall].
  intros [<- | Hv]; [exact Hacc | now apply Hall].
Qed.

Lemma fold_left_max_zseq (n : nat) (a : Z) :
  fold_left Z.max (zseq (a + 1) n) a = a + Z.of_nat n.
Proof.
  revert a. induction n as [| n IH]; intros a.
  - cbn. lia.
  - cbn [zseq fold_left]. replace (Z.max a (a + 1)) with (a + 1) by lia.
    rewrite IH. lia.
Qed.

(** After the numbers [1..n] the next sequence number is [n + 1]. *)
Lemma next_after_zseq (n : nat) :
  coalesce (sql_max (zseq 1 n)) 0 + 1 = Z.of_nat n + 1.
Proof.
  destruct n as [| n]; [reflexivity |].
  rewrite Nat2Z.inj_succ. cbn [zseq sql_max coalesce].
  rewrite (fold_left_max_zseq n 1). lia.
Qed.

Lemma zseq_snoc (a : Z) (n : nat) :
  zseq a (S n) = zseq a n ++ [a + Z.of_nat n].
Proof.
  revert a. induction n as [| n IH]; intros a.
  - cbn. now rewrite Z.add_0_r.
  - change (zseq a (S (S n))) with (a :: zseq (a + 1) (S n)).
    rewrite IH. cbn [zseq app].
    replace (a + 1 + Z.of_nat n) with (a + Z.of_nat (S n)) by lia. reflexivity.
Qed.

Lemma get_conversation_history_eq (sid : string) (srv : server) :
  reachable srv = true ->
  get_conversation_history sid srv
  = (Return (map entry_of (select_history sid (tables srv))), srv).
Proof.
  intros Hup. unfold get_conversation_history.
  now rewrite get_db_connection_read by assumption.
Qed.

Lemma messages_of_insert (sid : string) (d : db) (m : message) :
  messages_of sid (apply_write d (InsertMessage m))
  = messages_of sid d ++ (if String.eqb (m_session_id m) sid then [m] else []).
Proof.
  unfold messages_of; cbn. now rewrite filter_app.
Qed.

(** The row [save_message] stores sorts after every row of its session. *)
Lemma select_history_insert (sid sender text : string) (id : Z) (now : timestamp)
    (d : db) :
  select_history sid
    (apply_write d
       (InsertMessage (mkMessage id sid sender text (select_next_seq sid d) now)))
  = select_history sid d
    ++ [mkMessage id sid sender text (select_next_seq sid d) now].
Proof.
  unfold select_history.
  fold (messages_of sid d).
  fold (messages_of sid (apply_write d
          (InsertMessage (mkMessage id sid sender text (select_next_seq sid d) now)))).
  rewrite messages_of_insert. cbn [m_session_id]. rewrite String.eqb_refl.
  apply order_by_snoc. intros y Hy. cbn [m_sequence_number].
  apply Z.leb_le. unfold select_next_seq. fold (messages_of sid d).
  pose proof (sql_max_ge (map m_sequence_number (messages_of sid d))
                (m_sequence_number y) (in_map _ _ _ Hy)).
  lia.
Qed.


(** One step of the run of C3: the state after a call again satisfies what
    the next call needs. *)
Lemma save_message_next (sid sender text : string) (now : timestamp)
    (srv : server) (k : nat) :
  reachable srv = true ->
  wf srv ->
  In sid (map s_session_id (sessions (tables srv))) ->
  map m_sequence_number (messages_of sid (tables srv)) = zseq 1 k ->
  select_history sid (tables srv) = messages_of sid (tables srv) ->
  exists srv' row,
    save_message sid sender text now srv = (Return tt, srv') /\
    reachable srv' = true /\ wf srv' /\
    In sid (map s_session_id (sessions (tables srv'))) /\
    messages_of sid (tables srv') = messages_of sid (tables srv) ++ [row] /\
    appended row = (sender, text, now) /\
    m_sequence_number row = Z.of_nat k + 1 /\
    select_history sid (tables srv') = messages_of sid (tables srv').
Proof.
  intros Hup Hwf Hsid Hseq Hsorted.
  eexists _, (mkMessage _ sid sender text (select_next_seq sid (tables srv)) now).
  split; [now apply save_message_ok |].
  split; [reflexivity |].
  split; [now apply wf_insert_message |].
  split; [exact Hsid |].
  cbn [tables]. rewrite messages_of_insert. cbn [m_session_id].
  rewrite String.eqb_refl.
  split; [reflexivity |].
  split; [reflexivity |].
  split.
  - cbn [m_sequence_number]. unfold select_next_seq.
    fold (messages_of sid (tables srv)). rewrite Hseq. apply next_after_zseq.
  - rewrite select_history_insert. now rewrite Hsorted.
Qed.





(** ** Session names *)

Lemma filter_flat_map {A B} (keep : B -> bool) (expand : A -> list B) (rows : list A) :
  filter keep (flat_map expand rows) = flat_map (fun r => filter keep (expand r)) rows.
Proof.
  induction rows as [| r rows IH]; cbn; [reflexivity |].
  now rewrite filter_app, IH.
Qed.

Lemma flat_map_flat_map {A B C} (g : B -> list C) (f : A -> list B) (l : list A) :
  flat_map g (flat_map f l) = flat_map (fun x => flat_map g (f x)) l.
Proof.
  induction l as [| a l IH]; cbn; [reflexivity |].
  now rewrite flat_map_app, IH.
Qed.

Lemma flat_map_only {A B} (p : A -> bool) (f g : A -> list B) (l : list A) :
  (forall x, In x l -> p x = true -> f x = g x) ->
  (forall x, In x l -> p x = false -> f x = []) ->
  flat_map f l = flat_map g (filter p l).
Proof.
  intros Hyes Hno. induction l as [| a l IH]; cbn; [reflexivity |].
  rewrite IH.
  2:{ intros x Hx. apply Hyes. now right. }
  2:{ intros x Hx. apply Hno. now right. }
  destruct (p a) eqn:Hpa; cbn.
  - now rewrite (Hyes a (or_introl eq_refl) Hpa).
  - now rewrite (Hno a (or_introl eq_refl) Hpa).
Qed.

Lemma flat_map_map {A B C} (g : B -> list C) (f : A -> B) (l : list A) :
  flat_map g (map f l) = flat_map (fun x => g (f x)) l.
Proof.
  induction l as [| a l IH]; cbn; [reflexivity |]. now rewrite IH.
Qed.

Lemma flat_map_nil {A B} (f : A -> list B) (l : list A) :
  (forall x, In x l -> f x = []) -> flat_map f l = [].
Proof.
  intros H. induction l as [| a l IH]; cbn; [reflexivity |].
  rewrite (H a (or_introl eq_refl)). apply IH. intros x Hx. apply H. now right.
Qed.

Lemma NoDup_map_injective {A B} (f : A -> B) (l : list A) (x y : A) :
  NoDup (map f l) -> In x l -> In y l -> f x = f y -> x = y.
Proof.
  induction l as [| a l IH]; cbn; intros Hnd Hx Hy Heq; [contradiction |].
  inversion Hnd as [| ? ? Hnotin Hnd']; subst.
  destruct Hx as [-> | Hx], Hy as [-> | Hy]; auto.
  - exfalso. apply Hnotin. rewrite Heq. now apply in_map.
  - exfalso. apply Hnotin. rewrite <- Heq. now apply in_map.
Qed.

Lemma filter_none {A} (p : A -> bool) (l : list A) :
  (forall x, In x l -> p x = false) -> filter p l = [].
Proof.
  intros H. induction l as [| a l IH]; cbn; [reflexivity |].
  rewrite (H a (or_introl eq_refl)). apply IH. intros x Hx. apply H. now right.
Qed.

Lemma filter_all {A} (p : A -> bool) (l : list A) :
  (forall x, In x l -> p x = true) -> filter p l = l.
Proof.
  intros H. induction l as [| a l IH]; cbn; [reflexivity |].
  rewrite (H a (or_introl eq_refl)). f_equal. apply IH. intros x Hx. apply H. now right.
Qed.

(** With ids unique, the join condition picks out one student row. *)
Lemma filter_student_id (l : list student) (st : student) :
  NoDup (map st_student_id l) -> In st l ->
  filter (fun st' => st_student_id st =? st_student_id st') l = [st].
Proof.
  induction l as [| a l IH]; cbn; intros Hnd Hin; [contradiction |].
  inversion Hnd as [| ? ? Hnotin Hnd']; subst.
  destruct Hin as [-> | Hin].
  - rewrite Z.eqb_refl. f_equal. apply filter_none. intros x Hx.
    apply Z.eqb_neq. intros Heq. apply Hnotin. rewrite Heq. now apply in_map.
  - replace (st_student_id st =? st_student_id a) with false; [now apply IH |].
    symmetry. apply Z.eqb_neq. intros Heq. apply Hnotin. rewrite <- Heq.
    now apply in_map.
Qed.

Lemma joined_rows_student (d : db) (st : student) (s : session) :
  forall row, In row (joined_rows d st s) -> fst (fst row) = s /\ snd (fst row) = st.
Proof.
  intros row. unfold joined_rows.
  destruct (filter _ (messages d)) as [| m ms].
  - intros [<- | []]. auto.
  - intros Hin. apply in_map_iff in Hin. destruct Hin as (m' & <- & _). auto.
Qed.

(** The rows the query of [get_user_sessions] groups: those of the sessions
    of the one student registered under the email. *)
Lemma user_session_rows (email : string) (d : db) (st : student) :
  NoDup (map st_student_id (students d)) ->
  NoDup (map st_email (students d)) ->
  In st (students d) ->
  st_email st = email ->
  filter (fun '(_, st', _) => String.eqb (st_email st') email)
    (left_join_messages d (sessions_join_students d))
  = flat_map (joined_rows d st) (sessions_of (st_student_id st) d).
Proof.
  intros Hids Hemails Hst Hemail.
  unfold left_join_messages, sessions_join_students, sessions_of.
  rewrite flat_map_flat_map, filter_flat_map.
  apply flat_map_only.
  - intros s Hs Hown. apply Z.eqb_eq in Hown.
    replace (filter (fun st' => s_student_id s =? st_student_id st') (students d))
      with [st].
    2:{ rewrite Hown. symmetry. now apply filter_student_id. }
    cbn. rewrite app_nil_r. fold (joined_rows d st s).
    apply filter_all. intros [[s' st'] m] Hrow.
    destruct (joined_rows_student d st s _ Hrow) as [_ Hst']. cbn in Hst'.
    subst st'. now apply String.eqb_eq.
  - intros s Hs Hother. apply Z.eqb_neq in Hother.
    rewrite flat_map_map, filter_flat_map.
    apply flat_map_nil. intros st' Hst'. apply filter_In in Hst'.
    destruct Hst' as [Hin' Hid']. apply Z.eqb_eq in Hid'.
    fold (joined_rows d st' s).
    apply filter_none. intros [[s'' st''] m] Hrow.
    destruct (joined_rows_student d st' s _ Hrow) as [_ Heq]. cbn in Heq. subst st''.
    apply String.eqb_neq. intros Hsame.
    assert (st' = st) as ->.
    { apply (NoDup_map_injective st_email (students d)); try assumption. congruence. }
    congruence.
Qed.

Lemma gkey_eqb_eq (k1 k2 : gkey) : gkey_eqb k1 k2 = true <-> k1 = k2.
Proof.
  destruct k1 as [[i1 a1] c1], k2 as [[i2 a2] c2]. cbn.
  rewrite !andb_true_iff, !String.eqb_eq, Z.eqb_eq. split.
  - intros [[-> ->] ->]. reflexivity.
  - intros H. inversion H. auto.
Qed.

Lemma gkey_eqb_refl (k : gkey) : gkey_eqb k k = true.
Proof. now apply gkey_eqb_eq. Qed.

Lemma gkey_of_distinct (s1 s2 : session) :
  s_session_id s1 <> s_session_id s2 -> gkey_eqb (gkey_of s1) (gkey_of s2) = false.
Proof.
  intros Hne. apply not_true_iff_false. intros Heq. apply gkey_eqb_eq in Heq.
  unfold gkey_of in Heq. inversion Heq. contradiction.
Qed.

Lemma filter_idempotent {A} (p : A -> bool) (l : list A) :
  filter p (filter p l) = filter p l.
Proof.
  apply filter_all. intros x Hx. apply filter_In in Hx. tauto.
Qed.

(** A run of rows of one group contributes its key once. *)
Lemma distinct_keys_block (block rest : list gkey) (k : gkey) :
  block <> [] ->
  (forall k', In k' block -> k' = k) ->
  distinct_keys (block ++ rest)
  = k :: filter (fun k' => negb (gkey_eqb k k')) (distinct_keys rest).
Proof.
  induction block as [| a block IH]; intros Hne Hall; [contradiction |].
  assert (a = k) as -> by (apply Hall; now left).
  destruct block as [| b block].
  - reflexivity.
  - change (distinct_keys ((k :: b :: block) ++ rest))
      with (k :: filter (fun k' => negb (gkey_eqb k k'))
                   (distinct_keys ((b :: block) ++ rest))).
    rewrite IH; [| discriminate | intros k' Hk'; apply Hall; now right].
    cbn [filter]. rewrite gkey_eqb_refl. cbn [negb].
    now rewrite filter_idempotent.
Qed.

Lemma joined_rows_nonempty (d : db) (st : student) (s : session) :
  joined_rows d st s <> [].
Proof.
  unfold joined_rows. destruct (filter _ (messages d)); discriminate.
Qed.

Lemma joined_rows_some (d : db) (st : student) (s : session) :
  List.length (filter (fun '(_, _, m) => @is_some message m) (joined_rows d st s))
  = List.length
      (filter (fun m => String.eqb (s_session_id s) (m_session_id m)) (messages d)).
Proof.
  unfold joined_rows.
  destruct (filter _ (messages d)) as [| m ms]; [reflexivity |].
  rewrite filter_all; [now rewrite length_map |].
  intros [[s' st'] o] Hin. apply in_map_iff in Hin.
  destruct Hin as (m' & Heq & _). inversion Heq. reflexivity.
Qed.

Lemma distinct_keys_sessions (d : db) (st : student) (l : list session) :
  NoDup (map s_session_id l) ->
  distinct_keys (map (fun '(s, _, _) => gkey_of s) (flat_map (joined_rows d st) l))
  = map gkey_of l.
Proof.
  induction l as [| a l IH]; intros Hnd; [reflexivity |].
  inversion Hnd as [| ? ? Hnotin Hnd']; subst.
  cbn [flat_map]. rewrite map_app.
  rewrite (distinct_keys_block _ _ (gkey_of a)).
  - rewrite IH by assumption. cbn [map]. f_equal.
    apply filter_all. intros k Hk. apply in_map_iff in Hk.
    destruct Hk as (s & <- & Hs). apply negb_true_iff. apply gkey_of_distinct.
    intros Heq. apply Hnotin. rewrite Heq. now apply in_map.
  - pose proof (joined_rows_nonempty d st a) as Hne.
    destruct (joined_rows d st a); [contradiction | discriminate].
  - intros k Hk. apply in_map_iff in Hk. destruct Hk as ([[s st'] m] & <- & Hrow).
    destruct (joined_rows_student d st a _ Hrow) as [Hs _]. cbn in Hs. now subst.
Qed.

Lemma count_group_sessions (d : db) (st : student) (l : list session) (s : session) :
  NoDup (map s_session_id l) ->
  In s l ->
  count (filter (fun '(s0, _, m) => gkey_eqb (gkey_of s) (gkey_of s0) && is_some m)
           (flat_map (joined_rows d st) l))
  = message_total d s.
Proof.
  unfold count, message_total, count. intros Hnd Hin. f_equal.
  induction l as [| a l IH]; [contradiction |].
  inversion Hnd as [| ? ? Hnotin Hnd']; subst.
  cbn [flat_map]. rewrite filter_app, length_app.
  assert (Hrows : forall s1 s2 : session,
             s_session_id s1 <> s_session_id s2 ->
             filter (fun '(s0, _, m) => gkey_eqb (gkey_of s1) (gkey_of s0) && is_some m)
               (joined_rows d st s2) = []).
  { intros s1 s2 Hne. apply filter_none. intros [[s0 st0] m] Hrow.
    destruct (joined_rows_student d st s2 _ Hrow) as [Hs0 _]. cbn in Hs0. subst s0.
    now rewrite gkey_of_distinct. }
  destruct Hin as [-> | Hin].
  - replace (filter _ (flat_map (joined_rows d st) l)) with
      (@nil (session * student * option message)).
    + rewrite Nat.add_0_r. rewrite <- joined_rows_some with (st := st).
      f_equal. apply filter_ext_in. intros [[s0 st0] m] Hrow.
      destruct (joined_rows_student d st s _ Hrow) as [Hs0 _]. cbn in Hs0. subst s0.
      now rewrite gkey_eqb_refl.
    + symmetry. rewrite filter_flat_map. apply flat_map_nil. intros s2 Hs2.
      apply Hrows. intros Heq. apply Hnotin. rewrite Heq. now apply in_map.
  - rewrite Hrows.
    + cbn. now apply IH.
    + intros Heq. apply Hnotin. rewrite <- Heq. now apply in_map.
Qed.

(** The grouped rows: one per session of the student, in table order. *)
Lemma group_by_session_rows (d : db) (st : student) (l : list session) :
  NoDup (map s_session_id l) ->
  group_by_session (flat_map (joined_rows d st) l) = map (grouped_row d) l.
Proof.
  intros Hnd. unfold group_by_session.
  rewrite distinct_keys_sessions by assumption. rewrite map_map.
  apply map_ext_in. intros s Hs. unfold grouped_row. f_equal.
  now apply count_group_sessions.
Qed.

Lemma NoDup_map_filter {A B} (key : A -> B) (keep : A -> bool) (rows : list A) :
  NoDup (map key rows) -> NoDup (map key (filter keep rows)).
Proof.
  induction rows as [| r rows IH]; cbn; intros Hnd; [constructor |].
  inversion Hnd as [| ? ? Hnotin Hnd']; subst.
  destruct (keep r); cbn; [| now apply IH].
  constructor; [| now apply IH].
  intros Hin. apply Hnotin. apply in_map_iff in Hin.
  destruct Hin as (x & Heq & Hx). apply filter_In in Hx.
  rewrite <- Heq. apply in_map. tauto.
Qed.

(** What [get_user_sessions] asks the database, in a well-formed state:
    the sessions of the student registered under the email, newest
    first. *)
Lemma select_user_sessions_rows (email : string) (d : db) (st : student) :
  NoDup (map st_student_id (students d)) ->
  NoDup (map st_email (students d)) ->
  NoDup (map s_session_id (sessions d)) ->
  In st (students d) ->
  st_email st = email ->
  select_user_sessions email d
  = order_by (fun a b => snd (fst b) <=? snd (fst a))
      (map (grouped_row d) (sessions_of (st_student_id st) d)).
Proof.
  intros Hids Hemails Hsids Hst Hemail. unfold select_user_sessions.
  rewrite (user_session_rows email d st) by assumption.
  rewrite group_by_session_rows; [reflexivity |].
  unfold sessions_of. now apply NoDup_map_filter.
Qed.

(** Sorting newest-first a list that is oldest-first reverses it. *)
Lemma order_by_desc_increasing {A} (key : A -> Z) (l : list A) :
  increasing (map key l) ->
  order_by (fun a b => key b <=? key a) l = rev l.
Proof.
  induction l as [| a l IH]; cbn; intros Hinc; [reflexivity |].
  destruct Hinc as [Hlt Hinc]. unfold order_by in IH. rewrite IH by assumption.
  apply insert_by_last. intros y Hy. apply Z.leb_gt.
  rewrite Forall_forall in Hlt. apply Hlt. apply in_map. now apply in_rev.
Qed.

Lemma name_by_rank_snoc (total idx : Z) (rows : list (gkey * Z)) (r : gkey * Z) :
  name_by_rank total idx (rows ++ [r])
  = name_by_rank total idx rows
    ++ name_by_rank total (idx + Z.of_nat (List.length rows)) [r].
Proof.
  revert idx. induction rows as [| [[[sid a] c] n] rows IH]; intros idx.
  - cbn [app List.length Z.of_nat]. now rewrite Z.add_0_r.
  - cbn [app name_by_rank]. rewrite IH. cbn [app List.length].
    unfold gkey, timestamp in *.
    replace (idx + Z.of_nat (S (List.length rows)))
      with (idx + 1 + Z.of_nat (List.length rows)) by lia.
    reflexivity.
Qed.

(** Ranking newest-first rows by [total - idx] numbers them oldest-first
    with consecutive numbers that end at [total]. *)
Lemma name_by_rank_rev (total : Z) (rows : list (gkey * Z)) :
  map listed (name_by_rank total 0 (rev rows))
  = rev (names_from (total - Z.of_nat (List.length rows) + 1)
           (map (fun r => fst (fst (fst r))) rows)).
Proof.
  revert total. induction rows as [| [[[sid a] c] n] rows IH]; intros total.
  - reflexivity.
  - cbn [rev map names_from fst]. rewrite name_by_rank_snoc, map_app, IH.
    rewrite length_rev. cbn [name_by_rank map listed session_id session_name].
    cbn [List.length]. unfold gkey, timestamp in *.
    replace (total - Z.of_nat (S (List.length rows)) + 1 + 1)
      with (total - Z.of_nat (List.length rows) + 1) by lia.
    replace (total - (0 + Z.of_nat (List.length rows)))
      with (total - Z.of_nat (S (List.length rows)) + 1) by lia.
    reflexivity.
Qed.

Lemma get_user_sessions_eq (email : string) (srv : server) :
  reachable srv = true ->
  get_user_sessions email srv
  = (Return (name_by_rank (count (select_user_sessions email (tables srv))) 0
               (select_user_sessions email (tables srv))),
     srv).
Proof.
  intros Hup. unfold get_user_sessions.
  now rewrite (get_db_connection_read (select_user_sessions email)
                 (fun rows => name_by_rank (count rows) 0 rows)) by assumption.
Qed.

Lemma student_by_email_in (email : string) (d : db) (st : student) :
  student_by_email email d = Some st -> In st (students d) /\ st_email st = email.
Proof.
  intros Hfind. apply find_some in Hfind. destruct Hfind as [Hin Heq].
  apply String.eqb_eq in Heq. auto.
Qed.

Lemma sessions_of_insert (student_id : Z) (d : db) (r : session) :
  sessions_of student_id (apply_write d (InsertSession r))
  = sessions_of student_id d ++ (if s_student_id r =? student_id then [r] else []).
Proof.
  unfold sessions_of; cbn. now rewrite filter_app.
Qed.

(** The run of C1, from any number of sessions the student already has:
    each call returns the token it was given with the next name, and the
    rows are added to the table in call order. *)
Lemma create_sessions_run (student_id : Z) (reqs : list (string * string * timestamp)) :
  forall srv : server,
  reachable srv = true ->
  wf srv ->
  In student_id (map st_student_id (students (tables srv))) ->
  NoDup (map token reqs) ->
  (forall u, In u (map token reqs) ->
             ~ In u (map s_session_id (sessions (tables srv)))) ->
  exists srv',
    create_sessions student_id reqs srv
    = (map Return
         (names_from (count (sessions_of student_id (tables srv)) + 1) (map token reqs)),
       srv') /\
    reachable srv' = true /\ wf srv' /\
    tables srv'
    = mkDb (students (tables srv))
        (sessions (tables srv) ++ map (session_row student_id) reqs)
        (messages (tables srv)).
Proof.
  induction reqs as [| [[uuid4 ai] now] reqs IH]; intros srv Hup Hwf Hstu Hnd Hfresh.
  - exists srv. cbn. rewrite app_nil_r. destruct srv as [[] ? ? ?]; auto.
  - cbn [map token fst] in Hnd, Hfresh. inversion Hnd as [| ? ? Hnotin Hnd']; subst.
    pose proof (create_session_ok uuid4 student_id ai now srv Hup
                  (Hfresh uuid4 (or_introl eq_refl)) Hstu) as Hcall.
    set (row := mkSession uuid4 student_id ai now "active") in *.
    set (srv1 := set_tables srv (apply_write (tables srv) (InsertSession row))) in *.
    destruct (IH srv1) as (srv' & Hrun & Hup' & Hwf' & Htables).
    + exact Hup.
    + apply wf_insert_session; [assumption |]. apply Hfresh. now left.
    + exact Hstu.
    + exact Hnd'.
    + intros u Hu. cbn. rewrite map_app, in_app_iff. cbn.
      intros [Hold | [Heq | []]].
      * apply (Hfresh u); [now right | assumption].
      * apply Hnotin. now rewrite Heq.
    + exists srv'. cbn [create_sessions]. rewrite Hcall, Hrun.
      split.
      { cbn [map names_from token fst]. do 3 f_equal.
        unfold srv1. cbn [tables set_tables]. rewrite sessions_of_insert.
        cbn [s_student_id row]. unfold row. cbn [s_student_id].
        rewrite Z.eqb_refl. unfold count. rewrite length_app. cbn [List.length].
        f_equal. lia. }
      split; [exact Hup' |]. split; [exact Hwf' |].
      rewrite Htables. unfold srv1. cbn. now rewrite <- app_assoc.
Qed.


(** Whatever else the tables hold: when the sessions of the student
    registered under the email sit in the table in increasing order of
    [created_at], [get_user_sessions] lists them newest first and names
    each after its position in that order, counted from 1. *)
Lemma get_user_sessions_names (email : string) (st : student) (srv : server) :
  reachable srv = true ->
  wf srv ->
  student_by_email email (tables srv) = Some st ->
  increasing (map s_created_at (sessions_of (st_student_id st) (tables srv))) ->
  exists listing,
    get_user_sessions email srv = (Return listing, srv) /\
    map listed listing
    = rev (names_from 1
             (map s_session_id (sessions_of (st_student_id st) (tables srv)))).
Proof.
  intros Hup Hwf Hlook Hinc.
  destruct (student_by_email_in _ _ _ Hlook) as [Hst Hemail].
  eexists. split; [now apply get_user_sessions_eq |].
  rewrite (select_user_sessions_rows email (tables srv) st);
    try assumption; try apply Hwf.
  rewrite (order_by_desc_increasing (fun r : gkey * Z => snd (fst r))).
  2:{ rewrite map_map. exact Hinc. }
  unfold count. rewrite length_rev, name_by_rank_rev, !length_map.
  set (n := List.length (sessions_of (st_student_id st) (tables srv))).
  replace (Z.of_nat n - Z.of_nat n + 1) with 1 by lia.
  now rewrite map_map.
Qed.

(** The state the run of C1 ends in. *)
Lemma sessions_after_run (email : string) (st : student)
    (reqs : list (string * string * timestamp)) (srv : server) :
  reachable srv = true ->
  wf srv ->
  student_by_email email (tables srv) = Some st ->
  sessions_of (st_student_id st) (tables srv) = [] ->
  NoDup (map token reqs) ->
  (forall u, In u (map token reqs) ->
             ~ In u (map s_session_id (sessions (tables srv)))) ->
  exists srv',
    create_sessions (st_student_id st) reqs srv
    = (map Return (names_from 1 (map token reqs)), srv') /\
    reachable srv' = true /\ wf srv' /\
    student_by_email email (tables srv') = Some st /\
    sessions_of (st_student_id st) (tables srv')
    = map (session_row (st_student_id st)) reqs.
Proof.
  intros Hup Hwf Hlook Hnone Hnd Hfresh.
  destruct (student_by_email_in _ _ _ Hlook) as [Hst Hemail].
  destruct (create_sessions_run (st_student_id st) reqs srv Hup Hwf
              (in_map _ _ _ Hst) Hnd Hfresh)
    as (srv' & Hrun & Hup' & Hwf' & Htables).
  rewrite Hnone in Hrun. cbn in Hrun.
  exists srv'.
  split; [exact Hrun |]. split; [exact Hup' |]. split; [exact Hwf' |]. split.
  - rewrite Htables. exact Hlook.
  - rewrite Htables. unfold sessions_of in *. cbn [sessions].
    rewrite filter_app, Hnone. cbn [app].
    apply filter_all. intros s Hs. apply in_map_iff in Hs.
    destruct Hs as ([[u a] t] & <- & _). cbn. apply Z.eqb_refl.
Qed.

Lemma session_row_created_at (student_id : Z) (reqs : list (string * string * timestamp)) :
  map s_created_at (map (session_row student_id) reqs) = map requested_at reqs.
Proof.
  rewrite map_map. apply map_ext. intros [[u a] t]. reflexivity.
Qed.



(** ** The name looked up for one session *)

Lemma filter_andb {A} (p q : A -> bool) (l : list A) :
  filter (fun x => p x && q x) l = filter p (filter q l).
Proof.
  induction l as [| a l IH]; cbn; [reflexivity |].
  destruct (p a) eqn:Hp, (q a) eqn:Hq; cbn; rewrite ?Hp, ?IH; reflexivity.
Qed.

Lemma find_andb {A} (p q : A -> bool) (l : list A) :
  find (fun x => p x && q x) l = find p (filter q l).
Proof.
  induction l as [| a l IH]; cbn; [reflexivity |].
  destruct (p a) eqn:Hp, (q a) eqn:Hq; cbn; rewrite ?Hp, ?IH; reflexivity.
Qed.

Lemma find_map {A B} (p : B -> bool) (f : A -> B) (l : list A) :
  find p (map f l) = option_map f (find (fun x => p (f x)) l).
Proof.
  induction l as [| a l IH]; cbn; [reflexivity |].
  destruct (p (f a)); [reflexivity | exact IH].
Qed.

Lemma filter_map_comm {A B} (p : B -> bool) (f : A -> B) (l : list A) :
  filter p (map f l) = map f (filter (fun x => p (f x)) l).
Proof.
  induction l as [| a l IH]; cbn; [reflexivity |].
  destruct (p (f a)); cbn; now rewrite IH.
Qed.

(** The pairs of the join that carry the email: the sessions of the one
    student registered under it. *)
Lemma owned_pairs (email : string) (d : db) (st : student) :
  NoDup (map st_student_id (students d)) ->
  NoDup (map st_email (students d)) ->
  In st (students d) ->
  st_email st = email ->
  filter (fun '(_, st') => String.eqb (st_email st') email) (sessions_join_students d)
  = map (fun s => (s, st)) (sessions_of (st_student_id st) d).
Proof.
  intros Hids Hemails Hst Hemail.
  unfold sessions_join_students, sessions_of.
  rewrite filter_flat_map.
  rewrite (flat_map_only (fun s => s_student_id s =? st_student_id st) _
             (fun s => [(s, st)])).
  - induction (filter _ (sessions d)) as [| a l IH]; cbn; [| rewrite IH]; reflexivity.
  - intros s Hs Hown. apply Z.eqb_eq in Hown. rewrite Hown.
    rewrite filter_student_id by assumption. cbn.
    now rewrite Hemail, String.eqb_refl.
  - intros s Hs Hother. apply Z.eqb_neq in Hother.
    apply filter_none. intros [s' st'] Hin. apply in_map_iff in Hin.
    destruct Hin as (st'' & Heq & Hin). inversion Heq; subst s' st''.
    apply filter_In in Hin. destruct Hin as [Hin Hid]. apply Z.eqb_eq in Hid.
    apply String.eqb_neq. intros Hsame.
    assert (st' = st) as ->.
    { apply (NoDup_map_injective st_email (students d)); try assumption. congruence. }
    congruence.
Qed.

Lemma find_ext_eq {A} (f g : A -> bool) (l : list A) :
  (forall x, f x = g x) -> find f l = find g l.
Proof.
  intros H. induction l as [| a l IH]; cbn; [reflexivity |].
  rewrite H, IH. reflexivity.
Qed.

Lemma find_middle {A} (f : A -> bool) (front back : list A) (x : A) :
  (forall y, In y front -> f y = false) -> f x = true ->
  find f (front ++ x :: back) = Some x.
Proof.
  intros Hfront Hx. induction front as [| a front IH]; cbn.
  - now rewrite Hx.
  - rewrite (Hfront a (or_introl eq_refl)). apply IH.
    intros y Hy. apply Hfront. now right.
Qed.

Lemma increasing_app (l1 l2 : list timestamp) :
  increasing (l1 ++ l2) ->
  increasing l1 /\ increasing l2 /\ forall x y, In x l1 -> In y l2 -> x < y.
Proof.
  induction l1 as [| a l1 IH]; cbn.
  - intros H. repeat split; [assumption | intros x y []].
  - intros [Hlt Hinc]. destruct (IH Hinc) as (H1 & H2 & H12).
    apply Forall_app in Hlt. destruct Hlt as [Hlt1 Hlt2].
    repeat split; try assumption.
    intros x y [<- | Hx] Hy.
    + rewrite Forall_forall in Hlt2. now apply Hlt2.
    + now apply H12.
Qed.

(** Among rows in increasing order of [created_at], those created at or
    after a given row are that row and the ones behind it. *)
Lemma created_at_or_after (front back : list session) (s : session) :
  increasing (map s_created_at (front ++ s :: back)) ->
  filter (fun s2 => s_created_at s <=? s_created_at s2) (front ++ s :: back)
  = s :: back.
Proof.
  intros Hinc. rewrite map_app in Hinc. cbn [map] in Hinc.
  apply increasing_app in Hinc. destruct Hinc as (_ & Hback & Hfront).
  cbn in Hback. destruct Hback as [Hlater _].
  rewrite filter_app. rewrite filter_none.
  - cbn. rewrite Z.leb_refl. f_equal. apply filter_all.
    intros y Hy. apply Z.leb_le. rewrite Forall_forall in Hlater.
    specialize (Hlater (s_created_at y) (in_map _ _ _ Hy)). lia.
  - intros y Hy. apply Z.leb_gt. apply Hfront; [now apply in_map | now left].
Qed.

(** What [get_session_name] computes.  For a student whose sessions sit in
    the table in increasing order of [created_at], the session with
    [front] before it and [back] behind it is named after the number of
    sessions from it to the newest, [length back + 1]; [create_session]
    named it after the number of sessions up to it, [length front + 1]. *)
Lemma get_session_name_rank (email : string) (st : student) (s : session)
    (front back : list session) (srv : server) :
  reachable srv = true ->
  wf srv ->
  student_by_email email (tables srv) = Some st ->
  sessions_of (st_student_id st) (tables srv) = front ++ s :: back ->
  increasing (map s_created_at (front ++ s :: back)) ->
  get_session_name (s_session_id s) email srv
  = (Return (Some (fmt_session (Z.of_nat (List.length back) + 1))), srv).
Proof.
  intros Hup Hwf Hlook Hmine Hinc.
  destruct (student_by_email_in _ _ _ Hlook) as [Hst Hemail].
  pose proof (owned_pairs email (tables srv) st (wf_student_ids _ Hwf)
                (wf_emails _ Hwf) Hst Hemail) as Hpairs.
  assert (Hnd : NoDup (map s_session_id (front ++ s :: back))).
  { rewrite <- Hmine. unfold sessions_of. apply NoDup_map_filter. apply Hwf. }
  unfold get_session_name. rewrite get_db_connection_run by assumption.
  unfold bind, query, view. cbn [pending apply_writes fold_left].
  unfold select_session_number.
  rewrite (find_ext_eq _
             (fun x : session * student =>
                (let '(s0, _) := x in String.eqb (s_session_id s0) (s_session_id s))
                && (let '(_, st0) := x in String.eqb (st_email st0) email)))
    by (intros [s0 st0]; reflexivity).
  rewrite find_andb, Hpairs, Hmine, find_map. cbn beta iota.
  rewrite find_middle.
  2:{ intros y Hy. apply String.eqb_neq. intros Heq.
      rewrite map_app in Hnd. cbn [map] in Hnd. apply NoDup_remove_2 in Hnd.
      apply Hnd. rewrite in_app_iff. left. rewrite <- Heq. now apply in_map. }
  2:{ apply String.eqb_refl. }
  cbn [option_map].
  rewrite (filter_ext _
             (fun x : session * student =>
                (let '(s2, _) := x in s_created_at s <=? s_created_at s2)
                && (let '(_, st2) := x in String.eqb (st_email st2) email)))
    by (intros [s2 st2]; apply andb_comm).
  rewrite filter_andb, Hpairs, Hmine, filter_map_comm. cbn beta iota.
  rewrite created_at_or_after by assumption.
  unfold count. rewrite length_map. cbn [List.length ret].
  rewrite Nat2Z.inj_succ. replace (Z.succ (Z.of_nat (List.length back)))
    with (Z.of_nat (List.length back) + 1) by lia.
  cbn [pending apply_writes fold_left]. rewrite <- Hup. now rewrite server_eta.
Qed.


(** C2, on the code.  Ann creates two sessions: [create_session] names the
    first Session-1 and the second Session-2, and [get_user_sessions] lists
    them under these names.  [get_session_name] answers Session-2 for the
    first (the earliest) and Session-1 for the second: it counts the
    sessions created at or after the one asked for. *)
Theorem get_session_name_inverted :
  fst (create_sessions 1 [("c1", "Pritam", 30); ("c2", "Jitesh", 40)] demo_students)
  = [Return ("c1", "Session-1"); Return ("c2", "Session-2")] /\
  fst (get_user_sessions "ann@example.org" two_sessions)
  = Return [mkInfo "c2" "Session-2" "1970-01-01 00:00:00" 0;
            mkInfo "c1" "Session-1" "1970-01-01 00:00:00" 0] /\
  get_session_name "c1" "ann@example.org" two_sessions
  = (Return (Some "Session-2"), two_sessions) /\
  get_session_name "c2" "ann@example.org" two_sessions
  = (Return (Some "Session-1"), two_sessions).
Proof. vm_compute. repeat split. Qed.

Lemma names_from_nth (i : Z) (front back : list string) (id : string) :
  nth_error (names_from i (front ++ id :: back)) (List.length front)
  = Some (id, fmt_session (i + Z.of_nat (List.length front))).
Proof.
  revert i. induction front as [| a front IH]; intros i.
  - cbn. now rewrite Z.add_0_r.
  - cbn [app names_from List.length nth_error]. rewrite IH.
    replace (i + 1 + Z.of_nat (List.length front))
      with (i + Z.of_nat (S (List.length front))) by lia.
    reflexivity.
Qed.

(** X23. The two computations side by side after the run of C1: for the request
    with [front] before it and [back] behind it, [create_session] returned
    Session-(length front + 1) and [get_session_name] answers
    Session-(length back + 1). *)
Lemma get_session_name_after_run (email : string) (st : student)
    (front back : list (string * string * timestamp))
    (uuid4 ai : string) (now : timestamp) (srv : server) :
  let reqs := front ++ (uuid4, ai, now) :: back in
  reachable srv = true ->
  wf srv ->
  student_by_email email (tables srv) = Some st ->
  sessions_of (st_student_id st) (tables srv) = [] ->
  NoDup (map token reqs) ->
  (forall u, In u (map token reqs) ->
             ~ In u (map s_session_id (sessions (tables srv)))) ->
  increasing (map requested_at reqs) ->
  exists srv' rs,
    create_sessions (st_student_id st) reqs srv = (rs, srv') /\
    nth_error rs (List.length front)
    = Some (Return (uuid4, fmt_session (Z.of_nat (List.length front) + 1))) /\
    get_session_name uuid4 email srv'
    = (Return (Some (fmt_session (Z.of_nat (List.length back) + 1))), srv').
Proof.
  intros reqs Hup Hwf Hlook Hnone Hnd Hfresh Hinc.
  destruct (sessions_after_run email st reqs srv Hup Hwf Hlook Hnone Hnd Hfresh)
    as (srv' & Hrun & Hup' & Hwf' & Hlook' & Hmine).
  eexists srv', _. split; [exact Hrun |]. split.
  - apply map_nth_error. unfold reqs. rewrite map_app. cbn [map token fst].
    rewrite <- (length_map token front), names_from_nth.
    do 3 f_equal. lia.
  - unfold reqs in Hmine. rewrite map_app in Hmine. cbn [map] in Hmine.
    rewrite <- (length_map (session_row (st_student_id st)) back).
    apply (get_session_name_rank email st
             (session_row (st_student_id st) (uuid4, ai, now))
             (map (session_row (st_student_id st)) front)
             (map (session_row (st_student_id st)) back) srv');
      try assumption.
    change (map (session_row (st_student_id st)) front
            ++ session_row (st_student_id st) (uuid4, ai, now)
               :: map (session_row (st_student_id st)) back)
      with (map (session_row (st_student_id st)) front
            ++ map (session_row (st_student_id st)) ((uuid4, ai, now) :: back)).
    rewrite <- map_app. now rewrite session_row_created_at.
Qed.

(** ** Every state the helpers can reach *)

Lemma wf_same_tables (srv srv' : server) :
  tables srv' = tables srv ->
  students_seq (seqs srv') = students_seq (seqs srv) ->
  messages_seq (seqs srv) <= messages_seq (seqs srv') ->
  wf srv -> wf srv'.
Proof.
  intros Ht Hs Hm [Hids Hemails Hsids Hsseq Hmseq Hfk].
  constructor; rewrite ?Ht, ?Hs; try assumption.
  eapply Forall_impl; [| exact Hmseq]. cbn. intros m Hle. lia.
Qed.

Lemma get_db_connection_reachable {A} (body : M A) (srv : server) :
  reachable (snd (get_db_connection body srv)) = reachable srv.
Proof.
  destruct (reachable srv) eqn:Hup.
  - rewrite get_db_connection_run by assumption.
    destruct (body (tables srv) (seqs srv) (mkConnection [])) as [[[a | e] sq] conn];
      reflexivity.
  - now rewrite get_db_connection_down.
Qed.

Lemma get_conversation_history_state (sid : string) (srv : server) :
  snd (get_conversation_history sid srv) = srv.
Proof.
  destruct (reachable srv) eqn:Hup.
  - now rewrite get_conversation_history_eq.
  - unfold get_conversation_history. now rewrite get_db_connection_down.
Qed.

Lemma get_user_sessions_state (email : string) (srv : server) :
  snd (get_user_sessions email srv) = srv.
Proof.
  destruct (reachable srv) eqn:Hup.
  - now rewrite get_user_sessions_eq.
  - unfold get_user_sessions. now rewrite get_db_connection_down.
Qed.

Lemma session_exists_state (sid : string) (srv : server) :
  snd (session_exists sid srv) = srv.
Proof.
  destruct (reachable srv) eqn:Hup.
  - unfold session_exists. now rewrite get_db_connection_read.
  - unfold session_exists. now rewrite get_db_connection_down.
Qed.

Lemma get_session_name_state (sid email : string) (srv : server) :
  snd (get_session_name sid email srv) = srv.
Proof.
  unfold get_session_name.
  destruct (reachable srv) eqn:Hup.
  - rewrite get_db_connection_run by assumption.
    unfold bind, query, view. cbn [pending apply_writes fold_left].
    destruct (select_session_number sid email (tables srv)) as [[t n] |];
      cbn; rewrite <- Hup; apply server_eta.
  - now rewrite get_db_connection_down.
Qed.

(** [create_session] either stores the one row, under a new id, or leaves
    tables and sequences as they are. *)
Lemma create_session_state (uuid4 : string) (student_id : Z) (ai : string)
    (now : timestamp) (srv : server) :
  let srv' := snd (create_session uuid4 student_id ai now srv) in
  seqs srv' = seqs srv /\
  (tables srv' = tables srv \/
   ~ In uuid4 (map s_session_id (sessions (tables srv))) /\
   tables srv'
   = apply_write (tables srv)
       (InsertSession (mkSession uuid4 student_id ai now "active"))).
Proof.
  cbn zeta.
  destruct (reachable srv) eqn:Hup.
  2:{ unfold create_session. rewrite get_db_connection_down by assumption. auto. }
  destruct (existsb (fun s => String.eqb (s_session_id s) uuid4)
              (sessions (tables srv))) eqn:Htaken.
  { unfold create_session. rewrite get_db_connection_run by assumption.
    unfold bind, query, view, insert_session. cbn [pending apply_writes fold_left].
    unfold bind, query, view. cbn [pending apply_writes fold_left].
    rewrite Htaken. cbn. auto. }
  assert (Hfresh : ~ In uuid4 (map s_session_id (sessions (tables srv)))).
  { intros Hin. apply existsb_session_id in Hin. congruence. }
  destruct (existsb (fun st => st_student_id st =? student_id)
              (students (tables srv))) eqn:Howner.
  - rewrite create_session_ok; try assumption.
    + cbn. auto.
    + apply existsb_exists in Howner. destruct Howner as (st & Hst & Heq).
      apply Z.eqb_eq in Heq. rewrite <- Heq. now apply in_map.
  - unfold create_session. rewrite get_db_connection_run by assumption.
    unfold bind, query, view, insert_session. cbn [pending apply_writes fold_left].
    unfold bind, query, view. cbn [pending apply_writes fold_left].
    rewrite Htaken. cbn. unfold bind, query, view. cbn.
    rewrite Howner. cbn. auto.
Qed.

(** [save_message] never touches the students or the sessions. *)
Lemma save_message_state (sid sender text : string) (now : timestamp) (srv : server) :
  wf srv ->
  let srv' := snd (save_message sid sender text now srv) in
  wf srv' /\
  students (tables srv') = students (tables srv) /\
  sessions (tables srv') = sessions (tables srv).
Proof.
  intros Hwf. cbn zeta.
  destruct (reachable srv) eqn:Hup.
  2:{ unfold save_message. rewrite get_db_connection_down by assumption. auto. }
  destruct (existsb (fun s => String.eqb (s_session_id s) sid)
              (sessions (tables srv))) eqn:Hparent.
  - apply existsb_session_id in Hparent.
    rewrite save_message_ok by assumption. cbn [snd].
    split; [now apply wf_insert_message | auto].
  - unfold save_message. rewrite get_db_connection_run by assumption.
    unfold bind, query, view, insert_message, nextval_messages.
    cbn [pending apply_writes fold_left].
    unfold bind, query, view. cbn [pending apply_writes fold_left].
    destruct (existsb (fun m => m_message_id m =? messages_seq (seqs srv) + 1)
                (messages (tables srv))); cbn.
    + split; [| auto]. apply (wf_same_tables srv); cbn; try reflexivity; [lia | assumption].
    + unfold bind, query, view. cbn. rewrite Hparent. cbn.
      split; [| auto]. apply (wf_same_tables srv); cbn; try reflexivity; [lia | assumption].
Qed.

(** [get_or_create_student] never touches the sessions or the messages. *)
Lemma get_or_create_student_state (email name : string) (now : timestamp)
    (srv : server) :
  wf srv ->
  let srv' := snd (get_or_create_student email name now srv) in
  wf srv' /\
  sessions (tables srv') = sessions (tables srv) /\
  messages (tables srv') = messages (tables srv).
Proof.
  intros Hwf. cbn zeta.
  destruct (reachable srv) eqn:Hup.
  2:{ unfold get_or_create_student. rewrite get_db_connection_down by assumption. auto. }
  destruct (student_by_email email (tables srv)) as [st |] eqn:Hlook.
  - rewrite (get_or_create_student_found email name now srv st) by assumption.
    cbn [snd]. split; [now apply wf_update_last_login | auto].
  - rewrite get_or_create_student_new by assumption.
    cbn [snd]. split; [now apply wf_insert_student | auto].
Qed.

(** What one call, whichever it is, can do to the tables: the invariant
    is kept, and the sessions table grows by at most one row, stamped with
    the time of the call. *)
Lemma run_call_state (c : call) (now : timestamp) (srv : server) :
  wf srv ->
  let srv' := run_call c now srv in
  wf srv' /\
  reachable srv' = reachable srv /\
  (sessions (tables srv') = sessions (tables srv) \/
   exists row,
     sessions (tables srv') = sessions (tables srv) ++ [row] /\
     s_created_at row = now).
Proof.
  intros Hwf. cbn zeta.
  split; [| split].
  - destruct c as [e n | u stu ai | sid0 sender text | sid0 | e | sid0 | sid0 e];
      cbn [run_call].
    + now apply get_or_create_student_state.
    + destruct (create_session_state u stu ai now srv)
        as [Hseq [Hsame | [Hfresh Hins]]].
      * apply (wf_same_tables srv); try assumption; rewrite Hseq; [reflexivity | lia].
      * pose proof (wf_insert_session srv
                      (mkSession u stu ai now "active")
                      Hwf Hfresh) as Hwf'.
        destruct Hwf' as [Hids Hemails Hsids Hsseq Hmseq Hfk]. cbn in *.
        constructor; rewrite ?Hins, ?Hseq; assumption.
    + now apply save_message_state.
    + now rewrite get_conversation_history_state.
    + now rewrite get_user_sessions_state.
    + now rewrite session_exists_state.
    + now rewrite get_session_name_state.
  - destruct c; apply get_db_connection_reachable.
  - destruct c as [e n | u stu ai | sid0 sender text | sid0 | e | sid0 | sid0 e];
      cbn [run_call].
    + left. now apply get_or_create_student_state.
    + destruct (create_session_state u stu ai now srv)
        as [_ [Hsame | [_ Hins]]].
      * left. now rewrite Hsame.
      * right. eexists. rewrite Hins. cbn. split; reflexivity.
    + left. now apply save_message_state.
    + left. now rewrite get_conversation_history_state.
    + left. now rewrite get_user_sessions_state.
    + left. now rewrite session_exists_state.
    + left. now rewrite get_session_name_state.
Qed.

Lemma increasing_drop (l1 l2 : list timestamp) (x : timestamp) :
  increasing (l1 ++ x :: l2) -> increasing (l1 ++ l2).
Proof.
  induction l1 as [| a l1 IH]; cbn.
  - tauto.
  - intros [Hlt Hinc]. split; [| now apply IH].
    apply Forall_app in Hlt. destruct Hlt as [Hlt1 Hlt2].
    apply Forall_app. split; [assumption |]. now inversion Hlt2.
Qed.

Lemma increasing_filter {A} (key : A -> timestamp) (keep : A -> bool) (rows : list A) :
  increasing (map key rows) -> increasing (map key (filter keep rows)).
Proof.
  induction rows as [| r rows IH]; cbn; [tauto |].
  intros [Hlt Hinc]. destruct (keep r); cbn; [| now apply IH].
  split; [| now apply IH].
  rewrite Forall_forall in *. intros t Ht. apply Hlt.
  apply in_map_iff in Ht. destruct Ht as (x & <- & Hx).
  apply filter_In in Hx. apply in_map. tauto.
Qed.

(** A history that starts after every session in the table and runs at
    strictly increasing times keeps the invariant, only adds sessions at
    the end of the table, and leaves the sessions in increasing order of
    [created_at].  ([tail]: times still to come.) *)
Lemma run_state (history : list (call * timestamp)) :
  forall (srv : server) (tail : list timestamp),
  wf srv ->
  increasing (map s_created_at (sessions (tables srv)) ++ map snd history ++ tail) ->
  let srv' := run history srv in
  wf srv' /\
  reachable srv' = reachable srv /\
  (exists extra, sessions (tables srv') = sessions (tables srv) ++ extra) /\
  increasing (map s_created_at (sessions (tables srv')) ++ tail).
Proof.
  induction history as [| [c now] rest IH]; intros srv tail Hwf Hinc; cbn zeta.
  - cbn [run]. split; [exact Hwf |]. split; [reflexivity |].
    split; [exists []; now rewrite app_nil_r | exact Hinc].
  - cbn [run]. cbn [map snd app] in Hinc.
    destruct (run_call_state c now srv Hwf) as (Hwf1 & Hup1 & Hgrow).
    destruct (IH (run_call c now srv) tail Hwf1) as (Hwf' & Hup' & [extra Hext] & Hinc').
    { destruct Hgrow as [Hsame | (row & Hsnoc & Hrow)].
      - rewrite Hsame. now apply increasing_drop in Hinc.
      - rewrite Hsnoc, map_app, <- app_assoc. cbn [map app]. now rewrite Hrow. }
    split; [exact Hwf' |]. split; [now rewrite Hup' |]. split; [| exact Hinc'].
    destruct Hgrow as [Hsame | (row & Hsnoc & _)].
    + exists extra. now rewrite Hext, Hsame.
    + exists (row :: extra). rewrite Hext, Hsnoc, <- app_assoc. reflexivity.
Qed.

(** The invariant holds in every state reached from a state that has it,
    the empty server in particular. *)
Lemma run_wf (history : list (call * timestamp)) :
  forall srv : server, wf srv -> wf (run history srv).
Proof.
  induction history as [| [c now] rest IH]; intros srv Hwf; cbn [run]; [assumption |].
  apply IH. now apply run_call_state.
Qed.

(** When [create_session] returns, it has stored its row and named it
    after the number of sessions the student had. *)
Lemma create_session_returns (uuid4 : string) (student_id : Z) (ai : string)
    (now : timestamp) (srv : server) (result : string * string) :
  fst (create_session uuid4 student_id ai now srv) = Return result ->
  result = (uuid4, fmt_session (count (sessions_of student_id (tables srv)) + 1)) /\
  snd (create_session uuid4 student_id ai now srv)
  = set_tables srv
      (apply_write (tables srv)
         (InsertSession (mkSession uuid4 student_id ai now "active"))).
Proof.
  intros Hret.
  destruct (reachable srv) eqn:Hup.
  2:{ unfold create_session in Hret. rewrite get_db_connection_down in Hret by assumption.
      discriminate. }
  destruct (existsb (fun s => String.eqb (s_session_id s) uuid4)
              (sessions (tables srv))) eqn:Htaken.
  { exfalso. unfold create_session in Hret.
    rewrite get_db_connection_run in Hret by assumption.
    unfold bind, query, view, insert_session in Hret.
    cbn [pending apply_writes fold_left] in Hret.
    unfold bind, query, view in Hret. cbn [pending apply_writes fold_left] in Hret.
    rewrite Htaken in Hret. discriminate. }
  destruct (existsb (fun st => st_student_id st =? student_id)
              (students (tables srv))) eqn:Howner.
  - assert (Hfresh : ~ In uuid4 (map s_session_id (sessions (tables srv)))).
    { intros Hin. apply existsb_session_id in Hin. congruence. }
    assert (Hstu : In student_id (map st_student_id (students (tables srv)))).
    { apply existsb_exists in Howner. destruct Howner as (st & Hst & Heq).
      apply Z.eqb_eq in Heq. rewrite <- Heq. now apply in_map. }
    pose proof (create_session_ok uuid4 student_id ai now srv Hup Hfresh Hstu) as Hok.
    rewrite Hok in Hret |- *. cbn [fst snd] in *. inversion Hret. auto.
  - exfalso. unfold create_session in Hret.
    rewrite get_db_connection_run in Hret by assumption.
    unfold bind, query, view, insert_session in Hret.
    cbn [pending apply_writes fold_left] in Hret.
    unfold bind, query, view in Hret. cbn [pending apply_writes fold_left] in Hret.
    rewrite Htaken in Hret. cbn in Hret. unfold bind, query, view in Hret. cbn in Hret.
    rewrite Howner in Hret. discriminate.
Qed.

Lemma names_from_ids (i : Z) (ids : list string) :
  map fst (names_from i ids) = ids.
Proof.
  revert i. induction ids as [| id ids IH]; intros i; cbn; [reflexivity |].
  now rewrite IH.
Qed.

(** X21. The name [create_session] returned is the one name under which
    [get_user_sessions] reports the session at any later time, whatever
    calls, by whatever students, came before and come in between, as long
    as the calls happen at strictly increasing times. *)
Theorem session_name_is_stable (earlier later : list (call * timestamp))
    (uuid4 : string) (student_id : Z) (ai : string) (now : timestamp)
    (name email : string) (st : student) :
  let srv := run earlier empty_server in
  let srv' := run later (snd (create_session uuid4 student_id ai now srv)) in
  increasing (map snd (earlier ++ (CreateSession uuid4 student_id ai, now) :: later)) ->
  fst (create_session uuid4 student_id ai now srv) = Return (uuid4, name) ->
  student_by_email email (tables srv') = Some st ->
  st_student_id st = student_id ->
  exists listing,
    get_user_sessions email srv' = (Return listing, srv') /\
    In (uuid4, name) (map listed listing) /\
    (forall name', In (uuid4, name') (map listed listing) -> name' = name).
Proof.
  intros srv srv' Hinc Hret Hlook Hid.
  rewrite map_app in Hinc. cbn [map snd] in Hinc.
  destruct (run_state earlier empty_server (now :: map snd later) wf_empty_server Hinc)
    as (Hwf & Hup & _ & Hinc1).
  fold srv in Hwf, Hup, Hinc1. cbn in Hup.
  destruct (create_session_returns _ _ _ _ _ _ Hret) as [Hname Hstate].
  assert (Hname' : name = fmt_session (count (sessions_of student_id (tables srv)) + 1))
    by congruence.
  clear Hname.
  set (row := mkSession uuid4 student_id ai now "active") in *.
  assert (Hfresh : ~ In uuid4 (map s_session_id (sessions (tables srv)))).
  { destruct (create_session_state uuid4 student_id ai now srv)
      as [_ [Hsame | [Hfresh _]]]; [| exact Hfresh].
    rewrite Hstate in Hsame. cbn in Hsame.
    apply (f_equal sessions) in Hsame. cbn in Hsame.
    apply (f_equal (@List.length session)) in Hsame.
    rewrite length_app in Hsame. cbn in Hsame. lia. }
  assert (Hwf1 : wf (snd (create_session uuid4 student_id ai now srv))).
  { rewrite Hstate. now apply wf_insert_session. }
  destruct (run_state later (snd (create_session uuid4 student_id ai now srv)) []
              Hwf1) as (Hwf' & Hup' & [extra Hext] & Hinc').
  { rewrite Hstate. cbn [tables set_tables apply_write sessions].
    rewrite map_app, <- app_assoc, app_nil_r. exact Hinc1. }
  fold srv' in Hwf', Hup', Hext, Hinc'. rewrite app_nil_r in Hinc'.
  rewrite Hstate in Hup', Hext. cbn in Hup', Hext. rewrite Hup in Hup'.
  destruct (get_user_sessions_names email st srv' Hup' Hwf' Hlook)
    as (listing & Hlist & Hlisted).
  { unfold sessions_of. now apply increasing_filter. }
  exists listing. split; [exact Hlist |].
  assert (Hmine : sessions_of student_id (tables srv')
                  = sessions_of student_id (tables srv)
                    ++ row :: sessions_of student_id (mkDb [] extra [])).
  { unfold sessions_of. rewrite Hext, !filter_app. cbn [filter row s_student_id].
    rewrite Z.eqb_refl. now rewrite <- app_assoc. }
  rewrite Hid, Hmine, map_app in Hlisted. cbn [map row s_session_id] in Hlisted.
  assert (Hin : In (uuid4, name) (map listed listing)).
  { rewrite Hlisted. apply -> in_rev.
    apply (nth_error_In _ (List.length (map s_session_id (sessions_of student_id (tables srv))))).
    rewrite names_from_nth, length_map, Hname'. unfold count.
    do 3 f_equal. lia. }
  split; [exact Hin |].
  intros name' Hin'.
  assert (Hnd : NoDup (map fst (map listed listing))).
  { rewrite Hlisted, map_rev, names_from_ids. apply NoDup_rev.
    change (uuid4 :: map s_session_id (sessions_of student_id (mkDb [] extra [])))
      with (map s_session_id (row :: sessions_of student_id (mkDb [] extra []))).
    rewrite <- map_app, <- Hmine. unfold sessions_of.
    apply NoDup_map_filter. apply Hwf'. }
  pose proof (NoDup_map_injective fst _ _ _ Hnd Hin' Hin eq_refl) as Heq.
  now inversion Heq.
Qed.

(** ** Message numbers in every reachable state *)

Lemma numbered_same_messages (srv srv' : server) :
  messages (tables srv') = messages (tables srv) -> numbered srv -> numbered srv'.
Proof.
  intros Hsame Hnum sid. unfold select_history, messages_of in *.
  rewrite Hsame. apply Hnum.
Qed.

(** [save_message] either stores its row or leaves the messages alone. *)
Lemma save_message_messages (sid sender text : string) (now : timestamp) (srv : server) :
  wf srv ->
  let srv' := snd (save_message sid sender text now srv) in
  messages (tables srv') = messages (tables srv) \/
  reachable srv = true /\ In sid (map s_session_id (sessions (tables srv))).
Proof.
  intros Hwf. cbn zeta.
  destruct (reachable srv) eqn:Hup.
  2:{ unfold save_message. rewrite get_db_connection_down by assumption. auto. }
  destruct (existsb (fun s => String.eqb (s_session_id s) sid)
              (sessions (tables srv))) eqn:Hparent.
  - right. apply existsb_session_id in Hparent. auto.
  - left. unfold save_message. rewrite get_db_connection_run by assumption.
    unfold bind, query, view, insert_message, nextval_messages.
    cbn [pending apply_writes fold_left].
    unfold bind, query, view. cbn [pending apply_writes fold_left].
    destruct (existsb (fun m => m_message_id m =? messages_seq (seqs srv) + 1)
                (messages (tables srv))); cbn; [reflexivity |].
    unfold bind, query, view. cbn. rewrite Hparent. reflexivity.
Qed.

Lemma run_call_numbered (c : call) (now : timestamp) (srv : server) :
  wf srv -> numbered srv -> numbered (run_call c now srv).
Proof.
  intros Hwf Hnum.
  destruct c as [e n | u stu ai | sid0 sender text | sid0 | e | sid0 | sid0 e];
    cbn [run_call].
  - apply (numbered_same_messages srv); [| assumption].
    now apply get_or_create_student_state.
  - apply (numbered_same_messages srv); [| assumption].
    destruct (create_session_state u stu ai now srv)
      as [_ [Hsame | [_ Hins]]]; [now rewrite Hsame | now rewrite Hins].
  - destruct (save_message_messages sid0 sender text now srv Hwf)
      as [Hsame | [Hup Hsid]].
    + now apply (numbered_same_messages srv).
    + intros sid. destruct (String.eqb_spec sid0 sid) as [<- | Hother].
      * destruct (Hnum sid0) as [Hseq Hsorted].
        destruct (save_message_next sid0 sender text now srv _
                    Hup Hwf Hsid Hseq Hsorted)
          as (srv' & row & Hcall & _ & _ & _ & Hrows & _ & Hrow & Hsorted').
        rewrite Hcall. cbn [snd]. split; [| exact Hsorted'].
        rewrite Hrows, map_app, Hseq, length_app, Nat.add_1_r, zseq_snoc.
        cbn [map List.length]. rewrite Hrow. do 2 f_equal. lia.
      * rewrite save_message_ok by assumption. cbn [snd tables].
        unfold select_history. fold (messages_of sid (tables srv)).
        replace (filter _ (messages (apply_write (tables srv) _)))
          with (messages_of sid (tables srv)).
        2:{ symmetry. 
            change (filter ?f (messages ?d)) with (messages_of sid d).
            rewrite messages_of_insert. cbn [m_session_id].
            apply String.eqb_neq in Hother. rewrite Hother. apply app_nil_r. }
        rewrite messages_of_insert. cbn [m_session_id].
        apply String.eqb_neq in Hother. rewrite Hother, app_nil_r.
        apply Hnum.
  - now rewrite get_conversation_history_state.
  - now rewrite get_user_sessions_state.
  - now rewrite session_exists_state.
  - now rewrite get_session_name_state.
Qed.

Lemma run_numbered (history : list (call * timestamp)) :
  forall srv : server,
  wf srv -> numbered srv ->
  numbered (run history srv) /\ reachable (run history srv) = reachable srv.
Proof.
  induction history as [| [c now] rest IH]; intros srv Hwf Hnum; cbn [run]; [auto |].
  destruct (run_call_state c now srv Hwf) as (Hwf1 & Hup1 & _).
  destruct (IH (run_call c now srv) Hwf1 (run_call_numbered c now srv Hwf Hnum))
    as [Hnum' Hup'].
  split; [exact Hnum' | now rewrite Hup'].
Qed.

(** X22. In every state reached from the empty server, by whatever calls
    in whatever order, the messages of every session are numbered 1..n in the
    order in which they were stored, and [get_conversation_history]
    returns them in that order. *)
Theorem history_in_every_state (history : list (call * timestamp)) (sid : string) :
  let srv := run history empty_server in
  map m_sequence_number (messages_of sid (tables srv))
  = zseq 1 (List.length (messages_of sid (tables srv))) /\
  get_conversation_history sid srv
  = (Return (map entry_of (messages_of sid (tables srv))), srv).
Proof.
  cbn zeta.
  destruct (run_numbered history empty_server wf_empty_server) as [Hnum Hup].
  { intros sid'. split; reflexivity. }
  destruct (Hnum sid) as [Hseq Hsorted].
  split; [exact Hseq |].
  rewrite get_conversation_history_eq by exact Hup.
  now rewrite Hsorted.
Qed.

(** ** Two clients appending to one session *)

(** The machine is [save_message]: four steps of one client alone end in
    the outcome and the server that the function gives. *)
Lemma save_message_steps_refine (c : save_call) (srv : server) :
  save_message_steps 4 c AtConnect srv
  = let '(r, srv') :=
      save_message (call_session c) (call_sender c) (call_content c) (call_now c) srv
    in (Done r, srv').
Proof.
  unfold save_message, get_db_connection. cbn [save_message_steps save_message_step].
  destruct (connect srv) as [[srv1 conn] |] eqn:Hconn; [| reflexivity].
  cbn [save_message_step]. unfold bind, query.
  replace (set_seqs srv1 (seqs srv1)) with srv1 by (destruct srv1; reflexivity).
  cbn [save_message_step].
  destruct (insert_message _ _ _ _ _ (tables srv1) (seqs srv1) conn)
    as [[[u | e] sq] conn'] eqn:Hins.
  - destruct u. reflexivity.
  - reflexivity.
Qed.

(** One after the other the two calls get the numbers 1 and 2. *)
Example sequential_schedule_numbers :
  let '(pc1, pc2, srv) :=
    interleave [true; true; true; true; false; false; false; false]
      first_call second_call AtConnect AtConnect demo_server in
  pc1 = Done (Return tt) /\ pc2 = Done (Return tt) /\
  map m_sequence_number (messages_of "c1" (tables srv)) = [1; 2].
Proof. vm_compute. auto. Qed.

(** C4, on the code: two [save_message] calls on the same session whose
    statements interleave so that both SELECTs run before either INSERT.
    Both calls return normally, both read next_seq = 1, and the session
    ends with two messages that carry sequence number 1. *)
Theorem save_message_race_duplicates :
  let '(pc1, pc2, srv) :=
    interleave racing_schedule first_call second_call AtConnect AtConnect demo_server in
  pc1 = Done (Return tt) /\ pc2 = Done (Return tt) /\
  map appended (messages_of "c1" (tables srv))
  = [("user", "hello", 60); ("assistant", "hi", 61)] /\
  map m_sequence_number (messages_of "c1" (tables srv)) = [1; 1] /\
  ~ NoDup (map m_sequence_number (messages_of "c1" (tables srv))).
Proof.
  vm_compute. repeat split.
  intros Hnd. inversion Hnd as [| ? ? Hnotin _]. apply Hnotin. now left.
Qed.

(** * Further properties of database.py *)

(** ** The self-test *)


(** ** What the helpers leave alone *)

(** X2. The four reading helpers never change the server, whether it can
    be reached or not and whatever they are asked. *)
Theorem reading_helpers_change_nothing (sid email : string) (srv : server) :
  snd (get_conversation_history sid srv) = srv /\
  snd (get_user_sessions email srv) = srv /\
  snd (session_exists sid srv) = srv /\
  snd (get_session_name sid email srv) = srv.
Proof.
  repeat split.
  - apply get_conversation_history_state.
  - apply get_user_sessions_state.
  - apply session_exists_state.
  - apply get_session_name_state.
Qed.

(** X3. Each writing helper touches one table only, whether it succeeds
    or fails: [get_or_create_student] leaves sessions and messages as they
    are, [create_session] leaves students and messages, [save_message]
    leaves students and sessions. *)
Theorem writing_helpers_touch_one_table (srv : server)
    (email name uuid4 ai sid sender text : string) (student_id : Z) (now : timestamp) :
  wf srv ->
  (let d := tables (snd (get_or_create_student email name now srv)) in
   sessions d = sessions (tables srv) /\ messages d = messages (tables srv)) /\
  (let d := tables (snd (create_session uuid4 student_id ai now srv)) in
   students d = students (tables srv) /\ messages d = messages (tables srv)) /\
  (let d := tables (snd (save_message sid sender text now srv)) in
   students d = students (tables srv) /\ sessions d = sessions (tables srv)).
Proof.
  intros Hwf. cbn zeta. split; [| split].
  - now apply get_or_create_student_state.
  - destruct (create_session_state uuid4 student_id ai now srv)
      as [_ [Hsame | [_ Hins]]]; [now rewrite Hsame | now rewrite Hins].
  - now apply save_message_state.
Qed.

Lemma writing_helpers_touch_one_table_witness :
  (let d := tables (snd (get_or_create_student "cy@example.org" "Cy" 70 demo_server)) in
   sessions d = sessions (tables demo_server) /\
   messages d = messages (tables demo_server)) /\
  (let d := tables (snd (create_session "c9" 2 "Pritam" 70 demo_server)) in
   students d = students (tables demo_server) /\
   messages d = messages (tables demo_server)) /\
  (let d := tables (snd (save_message "c1" "user" "hello" 70 demo_server)) in
   students d = students (tables demo_server) /\
   sessions d = sessions (tables demo_server)).
Proof.
  exact (writing_helpers_touch_one_table demo_server "cy@example.org" "Cy" "c9"
           "Pritam" "c1" "user" "hello" 2 70 wf_demo_server).
Defined.

(** ** Sessions stay *)

Lemma run_reachable (history : list (call * timestamp)) :
  forall srv : server, reachable (run history srv) = reachable srv.
Proof.
  induction history as [| [c now] rest IH]; intros srv; cbn [run]; [reflexivity |].
  rewrite IH. destruct c; apply get_db_connection_reachable.
Qed.

(** No call removes a row from the sessions table. *)
Lemma run_keeps_sessions (history : list (call * timestamp)) :
  forall srv : server,
  wf srv ->
  exists extra, sessions (tables (run history srv)) = sessions (tables srv) ++ extra.
Proof.
  induction history as [| [c now] rest IH]; intros srv Hwf; cbn [run].
  - exists []. now rewrite app_nil_r.
  - destruct (run_call_state c now srv Hwf) as (Hwf1 & _ & Hgrow).
    destruct (IH _ Hwf1) as [extra Hext]. rewrite Hext.
    destruct Hgrow as [-> | (row & -> & _)].
    + now exists extra.
    + exists (row :: extra). now rewrite <- app_assoc.
Qed.

Lemma session_exists_eq (sid : string) (srv : server) :
  reachable srv = true ->
  session_exists sid srv
  = (Return (existsb (fun s => String.eqb (s_session_id s) sid) (sessions (tables srv))),
     srv).
Proof.
  intros Hup. unfold session_exists. rewrite get_db_connection_read by assumption.
  do 2 f_equal. unfold select_one_session.
  induction (sessions (tables srv)) as [| s l IH]; cbn; [reflexivity |].
  destruct (String.eqb (s_session_id s) sid); [reflexivity | exact IH].
Qed.

(** X4. A session that [create_session] has returned did not exist before
    the call and exists at every later time: [session_exists] answers
    False before, and True after any further calls of the helpers. *)
Theorem created_session_exists_from_then_on (history : list (call * timestamp))
    (uuid4 : string) (student_id : Z) (ai : string) (now : timestamp)
    (result : string * string) (srv : server) :
  wf srv ->
  fst (create_session uuid4 student_id ai now srv) = Return result ->
  session_exists uuid4 srv = (Return false, srv) /\
  let srv' := run history (snd (create_session uuid4 student_id ai now srv)) in
  session_exists uuid4 srv' = (Return true, srv').
Proof.
  intros Hwf Hret.
  assert (Hup : reachable srv = true).
  { destruct (reachable srv) eqn:Hup; [reflexivity |].
    unfold create_session in Hret.
    rewrite get_db_connection_down in Hret by assumption. discriminate. }
  destruct (create_session_returns _ _ _ _ _ _ Hret) as [_ Hstate].
  destruct (create_session_state uuid4 student_id ai now srv)
    as [_ [Hsame | [Hfresh _]]].
  { exfalso. rewrite Hstate in Hsame. cbn in Hsame.
    apply (f_equal sessions) in Hsame. cbn in Hsame.
    apply (f_equal (@List.length session)) in Hsame.
    rewrite length_app in Hsame. cbn in Hsame. lia. }
  split.
  - rewrite session_exists_eq by assumption. do 2 f_equal.
    apply not_true_iff_false. intros Hex. apply existsb_session_id in Hex.
    contradiction.
  - cbn zeta.
    assert (Hwf1 : wf (snd (create_session uuid4 student_id ai now srv))).
    { rewrite Hstate. now apply wf_insert_session. }
    destruct (run_keeps_sessions history _ Hwf1) as [extra Hext].
    rewrite session_exists_eq.
    2:{ rewrite run_reachable, Hstate. exact Hup. }
    do 2 f_equal. apply existsb_session_id. rewrite Hext, Hstate. cbn.
    rewrite !map_app, !in_app_iff. cbn. auto.
Qed.

Lemma created_session_exists_from_then_on_witness :
  session_exists "c9" demo_server = (Return false, demo_server) /\
  let srv' :=
    run [(SaveMessage "c9" "user" "hello", 80); (GetOrCreateStudent "cy@example.org" "Cy", 90)]
      (snd (create_session "c9" 2 "Pritam" 70 demo_server)) in
  session_exists "c9" srv' = (Return true, srv').
Proof.
  apply (created_session_exists_from_then_on
           [(SaveMessage "c9" "user" "hello", 80);
            (GetOrCreateStudent "cy@example.org" "Cy", 90)]
           "c9" 2 "Pritam" 70 ("c9", "Session-2") demo_server).
  - exact wf_demo_server.
  - reflexivity.
Defined.

(** ** The listing *)




Lemma message_total_count (d : db) (s : session) :
  message_total d s = count (messages_of (s_session_id s) d).
Proof.
  unfold message_total, messages_of. f_equal.
  apply filter_ext. intros m. apply String.eqb_sym.
Qed.

Lemma name_by_rank_oldest_first (total : Z) (d : db) (ss : list session) :
  name_by_rank total 0 (rev (map (grouped_row d) ss))
  = rev (infos_from d (total - Z.of_nat (List.length ss) + 1) ss).
Proof.
  revert total. induction ss as [| s ss IH]; intros total; [reflexivity |].
  cbn [map rev infos_from]. rewrite name_by_rank_snoc, IH, length_rev, length_map.
  cbn [List.length]. rewrite Nat2Z.inj_succ.
  replace (total - Z.succ (Z.of_nat (List.length ss)) + 1 + 1)
    with (total - Z.of_nat (List.length ss) + 1) by lia.
  f_equal. unfold grouped_row, gkey_of. cbn [name_by_rank].
  rewrite message_total_count. do 3 f_equal. lia.
Qed.

(** X6. The whole answer of [get_user_sessions].  In a well-formed state,
    for the student registered under the email, whose sessions are in the
    table in increasing order of [created_at]: the list has one entry per
    session of that student, newest first; the entry of the i-th oldest
    session carries its id, the name Session-i, its creation time to the
    second, and the number of messages stored for it, 0 when there is
    none. *)
Theorem get_user_sessions_listing (email : string) (st : student) (srv : server) :
  reachable srv = true ->
  wf srv ->
  student_by_email email (tables srv) = Some st ->
  increasing (map s_created_at (sessions_of (st_student_id st) (tables srv))) ->
  get_user_sessions email srv
  = (Return (rev (infos_from (tables srv) 1 (sessions_of (st_student_id st) (tables srv)))),
     srv).
Proof.
  intros Hup Hwf Hlook Hinc.
  destruct (student_by_email_in _ _ _ Hlook) as [Hst Hemail].
  rewrite get_user_sessions_eq by assumption. do 2 f_equal.
  rewrite (select_user_sessions_rows email (tables srv) st);
    try assumption; try apply Hwf.
  rewrite (order_by_desc_increasing (fun r : gkey * Z => snd (fst r))).
  2:{ rewrite map_map. exact Hinc. }
  unfold count. rewrite length_rev, length_map, name_by_rank_oldest_first.
  do 2 f_equal. lia.
Qed.

Lemma get_user_sessions_listing_witness :
  get_user_sessions "ann@example.org" demo_chat
  = (Return (rev (infos_from (tables demo_chat) 1
                    (sessions_of (st_student_id ann) (tables demo_chat)))),
     demo_chat).
Proof.
  apply (get_user_sessions_listing "ann@example.org" ann demo_chat).
  - reflexivity.
  - constructor; vm_compute; repeat constructor; simpl; intuition discriminate.
  - reflexivity.
  - simpl. repeat constructor; lia.
Defined.

Example demo_chat_listing :
  fst (get_user_sessions "ann@example.org" demo_chat)
  = Return [mkInfo "c2" "Session-2" "1970-01-01 00:00:00" 0;
            mkInfo "c1" "Session-1" "1970-01-01 00:00:00" 2].
Proof. reflexivity. Qed.

(** ** Students stay who they are *)

Lemma find_app_some {A} (test : A -> bool) (rows more : list A) (row : A) :
  find test rows = Some row -> find test (rows ++ more) = Some row.
Proof.
  induction rows as [| r rows IH]; cbn; [discriminate |].
  destruct (test r); [auto | exact IH].
Qed.

Lemma same_student_set_last_login (id : Z) (t : timestamp) (st : student) :
  same_student st (set_last_login id t st).
Proof.
  unfold same_student, set_last_login.
  destruct (st_student_id st =? id); cbn; auto.
Qed.

(** One call keeps every registration. *)
Lemma run_call_keeps_registration (c : call) (now : timestamp) (srv : server)
    (email : string) (st : student) :
  wf srv ->
  student_by_email email (tables srv) = Some st ->
  exists st',
    student_by_email email (tables (run_call c now srv)) = Some st' /\
    same_student st st'.
Proof.
  intros Hwf Hlook.
  assert (Hrefl : same_student st st) by (unfold same_student; auto).
  assert (Hsame : forall srv', students (tables srv') = students (tables srv) ->
            exists st', student_by_email email (tables srv') = Some st' /\
                        same_student st st').
  { intros srv' Heq. exists st. unfold student_by_email in *. now rewrite Heq. }
  destruct c as [e n | u stu ai | sid0 sender text | sid0 | e | sid0 | sid0 e];
    cbn [run_call].
  - destruct (reachable srv) eqn:Hup.
    2:{ unfold get_or_create_student. rewrite get_db_connection_down by assumption.
        now apply Hsame. }
    destruct (student_by_email e (tables srv)) as [st0 |] eqn:Hlook0.
    + rewrite (get_or_create_student_found e n now srv st0) by assumption.
      exists (set_last_login (st_student_id st0) now st). split.
      * unfold student_by_email in *. cbn. now rewrite find_map_set_last_login, Hlook.
      * apply same_student_set_last_login.
    + rewrite get_or_create_student_new by assumption.
      exists st. split; [| exact Hrefl].
      unfold student_by_email in *. cbn. now apply find_app_some.
  - apply Hsame.
    destruct (create_session_state u stu ai now srv) as [_ [H | [_ H]]]; now rewrite H.
  - apply Hsame. now apply save_message_state.
  - apply Hsame. now rewrite get_conversation_history_state.
  - apply Hsame. now rewrite get_user_sessions_state.
  - apply Hsame. now rewrite session_exists_state.
  - apply Hsame. now rewrite get_session_name_state.
Qed.

Lemma run_keeps_registration (history : list (call * timestamp)) :
  forall (srv : server) (email : string) (st : student),
  wf srv ->
  student_by_email email (tables srv) = Some st ->
  exists st',
    student_by_email email (tables (run history srv)) = Some st' /\
    same_student st st'.
Proof.
  induction history as [| [c now] rest IH]; intros srv email st Hwf Hlook; cbn [run].
  - exists st. unfold same_student. auto.
  - destruct (run_call_keeps_registration c now srv email st Hwf Hlook)
      as (st1 & Hlook1 & Hsame1).
    destruct (run_call_state c now srv Hwf) as (Hwf1 & _).
    destruct (IH _ email st1 Hwf1 Hlook1) as (st' & Hlook' & Hsame').
    exists st'. split; [exact Hlook' |].
    unfold same_student in *. intuition congruence.
Qed.

(** When [get_or_create_student] returns, the server was reachable. *)
Lemma get_or_create_student_returns (email name : string) (now : timestamp)
    (srv : server) (id : Z) :
  wf srv ->
  fst (get_or_create_student email name now srv) = Return id ->
  reachable srv = true /\
  wf (snd (get_or_create_student email name now srv)) /\
  exists st,
    student_by_email email (tables (snd (get_or_create_student email name now srv)))
    = Some st /\ st_student_id st = id.
Proof.
  intros Hwf Hret.
  assert (Hup : reachable srv = true).
  { destruct (reachable srv) eqn:Hup; [reflexivity |].
    unfold get_or_create_student in Hret.
    rewrite get_db_connection_down in Hret by assumption. discriminate. }
  split; [exact Hup |]. split; [now apply get_or_create_student_state |].
  destruct (get_or_create_student_registers email name now srv Hup Hwf)
    as (id0 & srv' & st & Hcall & _ & Hlook & Hid & _).
  rewrite Hcall in *. cbn [fst snd] in *. exists st. split; [exact Hlook |]. congruence.
Qed.

Lemma get_or_create_student_after_run (history : list (call * timestamp))
    (email name name' : string) (now now' : timestamp) (srv : server) (id : Z) :
  wf srv ->
  fst (get_or_create_student email name now srv) = Return id ->
  fst (get_or_create_student email name' now'
         (run history (snd (get_or_create_student email name now srv))))
  = Return id.
Proof.
  intros Hwf Hret.
  destruct (get_or_create_student_returns _ _ _ _ _ Hwf Hret)
    as (Hup & Hwf1 & st & Hlook & Hid).
  destruct (run_keeps_registration history _ email st Hwf1 Hlook)
    as (st' & Hlook' & Hsame).
  rewrite (get_or_create_student_found email name' now' _ st').
  - cbn. destruct Hsame as [Hid' _]. congruence.
  - rewrite run_reachable. unfold get_or_create_student.
    now rewrite get_db_connection_reachable.
  - exact Hlook'.
Qed.

(** X7. The id [get_or_create_student] returns for an email is permanent:
    after any further calls of the helpers, a call with the same email,
    with whatever name, returns the same id. *)
Theorem student_id_is_permanent (history : list (call * timestamp))
    (email name name' : string) (now now' : timestamp) (srv : server) (id : Z) :
  wf srv ->
  fst (get_or_create_student email name now srv) = Return id ->
  fst (get_or_create_student email name' now'
         (run history (snd (get_or_create_student email name now srv))))
  = Return id.
Proof.
  exact (get_or_create_student_after_run history email name name' now now' srv id).
Qed.

Lemma student_id_is_permanent_witness :
  fst (get_or_create_student "ann@example.org" "Anna" 99
         (run [(CreateSession "c7" 1 "Pritam", 80);
               (GetOrCreateStudent "cy@example.org" "Cy", 90)]
            (snd (get_or_create_student "ann@example.org" "Ann" 10 empty_server))))
  = Return 1.
Proof.
  apply (student_id_is_permanent
           [(CreateSession "c7" 1 "Pritam", 80);
            (GetOrCreateStudent "cy@example.org" "Cy", 90)]
           "ann@example.org" "Ann" "Anna" 10 99 empty_server 1).
  - exact wf_empty_server.
  - reflexivity.
Defined.

(** X8. Two emails get the same student id exactly when they are the same
    email: for a call of [get_or_create_student] with one email and a later
    call with another, with any calls of the helpers in between, the ids
    returned are equal if and only if the emails are. *)
Theorem same_id_same_email (history : list (call * timestamp))
    (email1 name1 email2 name2 : string) (now1 now2 : timestamp)
    (srv : server) (id1 id2 : Z) :
  wf srv ->
  fst (get_or_create_student email1 name1 now1 srv) = Return id1 ->
  fst (get_or_create_student email2 name2 now2
         (run history (snd (get_or_create_student email1 name1 now1 srv))))
  = Return id2 ->
  (id1 = id2 <-> email1 = email2).
Proof.
  intros Hwf Hret1 Hret2.
  set (srv1 := snd (get_or_create_student email1 name1 now1 srv)) in *.
  destruct (get_or_create_student_returns _ _ _ _ _ Hwf Hret1)
    as (Hup & Hwf1 & st1 & Hlook1 & Hid1).
  fold srv1 in Hwf1, Hlook1.
  split.
  - intros Hsame.
    assert (Hwf2 : wf (run history srv1)) by (now apply run_wf).
    destruct (run_keeps_registration history srv1 email1 st1 Hwf1 Hlook1)
      as (st1m & Hlook1m & Hsame1m).
    destruct (run_call_keeps_registration (GetOrCreateStudent email2 name2) now2
                (run history srv1) email1 st1m Hwf2 Hlook1m)
      as (st1' & Hlook1' & Hsame1).
    cbn [run_call] in Hlook1'.
    destruct (get_or_create_student_returns _ _ _ _ _ Hwf2 Hret2)
      as (_ & Hwf3 & st2 & Hlook2 & Hid2).
    destruct (student_by_email_in _ _ _ Hlook1') as [Hin1 Hemail1].
    destruct (student_by_email_in _ _ _ Hlook2) as [Hin2 Hemail2].
    assert (st1' = st2) as ->.
    { apply (NoDup_map_injective st_student_id _ _ _ (wf_student_ids _ Hwf3) Hin1 Hin2).
      unfold same_student in *. intuition congruence. }
    congruence.
  - intros <-.
    pose proof (get_or_create_student_after_run history email1 name1 name2 now1 now2
                  srv id1 Hwf Hret1) as Hperm.
    fold srv1 in Hperm. congruence.
Qed.

Lemma same_id_same_email_witness :
  (1 = 2 <-> "ann@example.org" = "bob@example.org").
Proof.
  apply (same_id_same_email [(CreateSession "c7" 1 "Pritam", 15)]
           "ann@example.org" "Ann" "bob@example.org" "Bob" 10 20 empty_server 1 2).
  - exact wf_empty_server.
  - reflexivity.
  - reflexivity.
Defined.

(** X9. Logging one student in leaves every other student's row exactly
    as it was, [last_login] included. *)
Theorem get_or_create_student_keeps_other_rows (email name : string)
    (now : timestamp) (srv : server) (other : student) :
  wf srv ->
  In other (students (tables srv)) ->
  st_email other <> email ->
  In other (students (tables (snd (get_or_create_student email name now srv)))).
Proof.
  intros Hwf Hin Hne.
  destruct (reachable srv) eqn:Hup.
  2:{ unfold get_or_create_student. now rewrite get_db_connection_down by assumption. }
  destruct (student_by_email email (tables srv)) as [st |] eqn:Hlook.
  - rewrite (get_or_create_student_found email name now srv st) by assumption.
    cbn. apply in_map_iff. exists other. split; [| exact Hin].
    unfold set_last_login.
    destruct (Z.eqb_spec (st_student_id other) (st_student_id st)) as [Heq | _];
      [| reflexivity].
    exfalso. destruct (student_by_email_in _ _ _ Hlook) as [Hst Hemail].
    apply Hne. rewrite <- Hemail. f_equal.
    exact (NoDup_map_injective st_student_id _ _ _ (wf_student_ids _ Hwf) Hin Hst Heq).
  - rewrite get_or_create_student_new by assumption. cbn.
    rewrite in_app_iff. now left.
Qed.

Lemma get_or_create_student_keeps_other_rows_witness :
  In (mkStudent 2 "bob@example.org" "Bob" 20 20)
    (students (tables (snd (get_or_create_student "ann@example.org" "Ann" 60 demo_server)))).
Proof.
  apply (get_or_create_student_keeps_other_rows "ann@example.org" "Ann" 60 demo_server).
  - exact wf_demo_server.
  - vm_compute. tauto.
  - discriminate.
Defined.

(** X10. In every state reached from the empty server by calls of the
    helpers one after the other, no two student rows share an email. *)
Theorem emails_stay_unique (history : list (call * timestamp)) :
  NoDup (map st_email (students (tables (run history empty_server)))).
Proof.
  apply wf_emails. apply run_wf. exact wf_empty_server.
Qed.

(** ** Sessions do not disturb each other *)

(** X11. Appending to one session never changes what
    [get_conversation_history] answers for another session, whether the
    append succeeds or fails. *)
Theorem save_message_keeps_other_histories (sid other sender text : string)
    (now : timestamp) (srv : server) :
  wf srv ->
  sid <> other ->
  fst (get_conversation_history other (snd (save_message sid sender text now srv)))
  = fst (get_conversation_history other srv).
Proof.
  intros Hwf Hne.
  set (srv' := snd (save_message sid sender text now srv)).
  assert (Hup' : reachable srv' = reachable srv)
    by apply get_db_connection_reachable.
  destruct (reachable srv) eqn:Hup.
  2:{ unfold get_conversation_history.
      now rewrite !get_db_connection_down by assumption. }
  rewrite !get_conversation_history_eq by assumption. cbn [fst]. do 2 f_equal.
  unfold select_history. f_equal.
  destruct (save_message_messages sid sender text now srv Hwf) as [Hsame | [_ Hsid]].
  - fold srv' in Hsame. now rewrite Hsame.
  - unfold srv'. rewrite save_message_ok by assumption. cbn [snd tables].
    change (messages_of other
              (apply_write (tables srv)
                 (InsertMessage
                    (mkMessage (messages_seq (seqs srv) + 1) sid sender text
                       (select_next_seq sid (tables srv)) now)))
            = messages_of other (tables srv)).
    rewrite messages_of_insert. cbn [m_session_id].
    apply String.eqb_neq in Hne. rewrite Hne. apply app_nil_r.
Qed.

Lemma save_message_keeps_other_histories_witness :
  fst (get_conversation_history "c1"
         (snd (save_message "c2" "user" "hello" 70 demo_chat)))
  = fst (get_conversation_history "c1" demo_chat).
Proof.
  apply (save_message_keeps_other_histories "c2" "c1" "user" "hello" 70 demo_chat).
  - constructor; vm_compute; repeat constructor; simpl; intuition discriminate.
  - discriminate.
Defined.

(** X12. Creating a session for one student never changes what
    [get_user_sessions] answers for a student with another id, whether the
    creation succeeds or fails. *)
Theorem create_session_keeps_other_listings (uuid4 : string) (student_id : Z)
    (ai : string) (now : timestamp) (email : string) (st : student) (srv : server) :
  wf srv ->
  student_by_email email (tables srv) = Some st ->
  st_student_id st <> student_id ->
  fst (get_user_sessions email (snd (create_session uuid4 student_id ai now srv)))
  = fst (get_user_sessions email srv).
Proof.
  intros Hwf Hlook Hne.
  set (srv' := snd (create_session uuid4 student_id ai now srv)).
  assert (Hup' : reachable srv' = reachable srv)
    by apply get_db_connection_reachable.
  destruct (reachable srv) eqn:Hup.
  2:{ unfold get_user_sessions. now rewrite !get_db_connection_down by assumption. }
  assert (Hwf' : wf srv')
    by apply (run_call_state (CreateSession uuid4 student_id ai) now srv Hwf).
  destruct (student_by_email_in _ _ _ Hlook) as [Hst Hemail].
  destruct (create_session_state uuid4 student_id ai now srv)
    as [_ [Hsame | [_ Hins]]]; fold srv' in Hsame || fold srv' in Hins.
  - rewrite !get_user_sessions_eq by assumption. cbn [fst]. now rewrite Hsame.
  - rewrite !get_user_sessions_eq by assumption. cbn [fst].
    rewrite (select_user_sessions_rows email (tables srv') st); try apply Hwf';
      [| rewrite Hins; exact Hst | exact Hemail].
    rewrite (select_user_sessions_rows email (tables srv) st); try apply Hwf;
      try assumption.
    assert (Hmine : sessions_of (st_student_id st) (tables srv')
                    = sessions_of (st_student_id st) (tables srv)).
    { rewrite Hins, sessions_of_insert. cbn [s_student_id].
      replace (student_id =? st_student_id st) with false; [apply app_nil_r |].
      symmetry. apply Z.eqb_neq. congruence. }
    rewrite Hmine.
    replace (map (grouped_row (tables srv')) (sessions_of (st_student_id st) (tables srv)))
      with (map (grouped_row (tables srv)) (sessions_of (st_student_id st) (tables srv)));
      [reflexivity |].
    apply map_ext. intros s. unfold grouped_row, message_total. now rewrite Hins.
Qed.

Lemma create_session_keeps_other_listings_witness :
  fst (get_user_sessions "ann@example.org"
         (snd (create_session "c9" 2 "Pritam" 70 demo_chat)))
  = fst (get_user_sessions "ann@example.org" demo_chat).
Proof.
  apply (create_session_keeps_other_listings "c9" 2 "Pritam" 70 "ann@example.org"
           (mkStudent 1 "ann@example.org" "Ann" 10 10) demo_chat).
  - constructor; vm_compute; repeat constructor; simpl; intuition discriminate.
  - reflexivity.
  - discriminate.
Defined.

(** ** The name of one's own session *)

Lemma filter_length_le {A} (keep : A -> bool) (rows : list A) :
  (List.length (filter keep rows) <= List.length rows)%nat.
Proof.
  induction rows as [| r rows IH]; cbn; [lia |].
  destruct (keep r); cbn; lia.
Qed.

(** X13. For a session of the student registered under the email,
    [get_session_name] always finds a name, and its number lies between 1
    and the number of sessions that student has. *)
Theorem get_session_name_in_range (email : string) (st : student) (s : session)
    (srv : server) :
  reachable srv = true ->
  wf srv ->
  student_by_email email (tables srv) = Some st ->
  In s (sessions_of (st_student_id st) (tables srv)) ->
  exists k,
    1 <= k <= count (sessions_of (st_student_id st) (tables srv)) /\
    get_session_name (s_session_id s) email srv
    = (Return (Some (fmt_session k)), srv).
Proof.
  intros Hup Hwf Hlook Hs.
  destruct (student_by_email_in _ _ _ Hlook) as [Hst Hemail].
  pose proof (owned_pairs email (tables srv) st (wf_student_ids _ Hwf)
                (wf_emails _ Hwf) Hst Hemail) as Hpairs.
  unfold get_session_name. rewrite get_db_connection_run by assumption.
  unfold bind, query, view. cbn [pending apply_writes fold_left].
  unfold select_session_number.
  rewrite (find_ext_eq _
             (fun x : session * student =>
                (let '(s0, _) := x in String.eqb (s_session_id s0) (s_session_id s))
                && (let '(_, st0) := x in String.eqb (st_email st0) email)))
    by (intros [s0 st0]; reflexivity).
  rewrite find_andb, Hpairs, find_map. cbn beta iota.
  destruct (find (fun s0 => String.eqb (s_session_id s0) (s_session_id s))
              (sessions_of (st_student_id st) (tables srv))) as [s' |] eqn:Hfind.
  2:{ exfalso. pose proof (find_none _ _ Hfind s Hs) as Hno. cbn in Hno.
      now rewrite String.eqb_refl in Hno. }
  apply find_some in Hfind. destruct Hfind as [Hs' _].
  cbn [option_map].
  rewrite (filter_ext _
             (fun x : session * student =>
                (let '(s2, _) := x in s_created_at s' <=? s_created_at s2)
                && (let '(_, st2) := x in String.eqb (st_email st2) email)))
    by (intros [s2 st2]; apply andb_comm).
  rewrite filter_andb, Hpairs, filter_map_comm. cbn beta iota.
  eexists. split; [| cbn; rewrite <- Hup; now rewrite server_eta].
  unfold count. rewrite length_map. split.
  - assert (Hin : In s' (filter (fun s2 => s_created_at s' <=? s_created_at s2)
                         (sessions_of (st_student_id st) (tables srv)))).
    { apply filter_In. split; [exact Hs' | apply Z.leb_refl]. }
    destruct (filter _ (sessions_of (st_student_id st) (tables srv)));
      [contradiction | cbn [List.length]; lia].
  - apply inj_le. apply filter_length_le.
Qed.

Lemma get_session_name_in_range_witness :
  exists k,
    1 <= k <= count (sessions_of (st_student_id ann) (tables demo_server)) /\
    get_session_name "c1" "ann@example.org" demo_server
    = (Return (Some (fmt_session k)), demo_server).
Proof.
  apply (get_session_name_in_range "ann@example.org" ann
           (mkSession "c1" 1 "Pritam" 30 "active") demo_server).
  - reflexivity.
  - exact wf_demo_server.
  - reflexivity.
  - vm_compute. tauto.
Defined.

(** ** Witnesses for the results over whole histories *)

Lemma session_name_is_stable_witness :
  exists listing,
    get_user_sessions "ann@example.org" two_sessions = (Return listing, two_sessions) /\
    In ("c1", "Session-1") (map listed listing) /\
    (forall name', In ("c1", name') (map listed listing) -> name' = "Session-1").
Proof.
  apply (session_name_is_stable
           [(GetOrCreateStudent "ann@example.org" "Ann", 10);
            (GetOrCreateStudent "bob@example.org" "Bob", 20)]
           [(CreateSession "c2" 1 "Jitesh", 40)]
           "c1" 1 "Pritam" 30 "Session-1" "ann@example.org" ann).
  - simpl. repeat constructor; lia.
  - reflexivity.
  - reflexivity.
  - reflexivity.
Defined.

Lemma get_session_name_after_run_witness :
  exists srv' rs,
    create_sessions (st_student_id ann) three_requests demo_students = (rs, srv') /\
    nth_error rs 0 = Some (Return ("c1", fmt_session 1)) /\
    get_session_name "c1" "ann@example.org" srv'
    = (Return (Some (fmt_session 3)), srv').
Proof.
  apply (get_session_name_after_run "ann@example.org" ann []
           [("c2", "Jitesh", 40); ("c4", "Pritam", 45)] "c1" "Pritam" 30 demo_students).
  - reflexivity.
  - exact wf_demo_students.
  - reflexivity.
  - reflexivity.
  - repeat constructor; simpl; intuition discriminate.
  - intros u _ [].
  - simpl. repeat constructor; lia.
Defined.

(** ** Conversations only grow *)

Lemma run_call_keeps_messages (c : call) (now : timestamp) (srv : server) :
  wf srv ->
  exists extra,
    messages (tables (run_call c now srv)) = messages (tables srv) ++ extra.
Proof.
  intros Hwf.
  assert (Hsame : forall srv', messages (tables srv') = messages (tables srv) ->
            exists extra, messages (tables srv') = messages (tables srv) ++ extra).
  { intros srv' ->. exists []. now rewrite app_nil_r. }
  destruct c as [e n | u stu ai | sid0 sender text | sid0 | e | sid0 | sid0 e];
    cbn [run_call].
  - apply Hsame. now apply get_or_create_student_state.
  - apply Hsame.
    destruct (create_session_state u stu ai now srv) as [_ [H | [_ H]]]; now rewrite H.
  - destruct (save_message_messages sid0 sender text now srv Hwf) as [H | [Hup Hsid]].
    + now apply Hsame.
    + rewrite save_message_ok by assumption. cbn. eexists. reflexivity.
  - apply Hsame. now rewrite get_conversation_history_state.
  - apply Hsame. now rewrite get_user_sessions_state.
  - apply Hsame. now rewrite session_exists_state.
  - apply Hsame. now rewrite get_session_name_state.
Qed.

Lemma run_keeps_messages (history : list (call * timestamp)) :
  forall srv : server,
  wf srv ->
  exists extra, messages (tables (run history srv)) = messages (tables srv) ++ extra.
Proof.
  induction history as [| [c now] rest IH]; intros srv Hwf; cbn [run].
  - exists []. now rewrite app_nil_r.
  - destruct (run_call_state c now srv Hwf) as (Hwf1 & _).
    destruct (run_call_keeps_messages c now srv Hwf) as [e1 H1].
    destruct (IH _ Hwf1) as [e2 H2].
    exists (e1 ++ e2). now rewrite H2, H1, app_assoc.
Qed.

(** X19. A conversation is never rewritten: for every session, what
    [get_conversation_history] returns after further calls of the helpers
    starts with exactly what it returned before them. *)
Theorem conversation_only_grows (before after : list (call * timestamp))
    (sid : string) :
  let srv1 := run before empty_server in
  let srv2 := run after srv1 in
  exists hist more,
    get_conversation_history sid srv1 = (Return hist, srv1) /\
    get_conversation_history sid srv2 = (Return (hist ++ more), srv2).
Proof.
  cbn zeta.
  assert (Hwf1 : wf (run before empty_server)) by (apply run_wf, wf_empty_server).
  destruct (run_numbered before empty_server wf_empty_server) as [Hnum1 Hup1].
  { intros sid'. split; reflexivity. }
  destruct (run_numbered after _ Hwf1 Hnum1) as [Hnum2 Hup2].
  rewrite Hup1 in Hup2. cbn in Hup1, Hup2.
  destruct (run_keeps_messages after _ Hwf1) as [extra Hext].
  rewrite !get_conversation_history_eq by assumption.
  destruct (Hnum1 sid) as [_ ->]. destruct (Hnum2 sid) as [_ ->].
  eexists _, (map entry_of (messages_of sid (mkDb [] [] extra))).
  split; [reflexivity |]. do 2 f_equal.
  unfold messages_of. rewrite Hext, filter_app, map_app. reflexivity.
Qed.

(** * Properties of the front end *)

(** ** White space *)

Ltac space_facts :=
  repeat match goal with
         | H : _ && _ = true |- _ => apply andb_true_iff in H; destruct H
         | H : _ || _ = true |- _ => apply orb_true_iff in H; destruct H
         | H : Nat.eqb _ _ = true |- _ => apply Nat.eqb_eq in H
         | H : Nat.leb _ _ = true |- _ => apply Nat.leb_le in H
         end.

Lemma space2_not_space1 (a b : ascii) :
  Ui.is_space2 a b = true -> Ui.is_space1 a = false.
Proof.
  unfold Ui.is_space2, Ui.is_space1. intros H.
  apply not_true_iff_false. intros H1. space_facts; lia.
Qed.

Lemma space3_not_space1 (a b c : ascii) :
  Ui.is_space3 a b c = true -> Ui.is_space1 a = false.
Proof.
  unfold Ui.is_space3, Ui.is_space1. cbn zeta. intros H.
  apply not_true_iff_false. intros H1. space_facts; lia.
Qed.

Lemma space3_not_space2 (a b c : ascii) :
  Ui.is_space3 a b c = true -> Ui.is_space2 a b = false.
Proof.
  unfold Ui.is_space3, Ui.is_space2. cbn zeta. intros H.
  apply not_true_iff_false. intros H1. space_facts; lia.
Qed.

Lemma strip_front_blank (s : string) :
  Ui.blank s -> Ui.strip_front false s = EmptyString.
Proof.
  induction 1 as [| a s Ha _ IH | a b s Hab _ IH | a b c s Habc _ IH].
  - reflexivity.
  - cbn. now rewrite Ha.
  - cbn. now rewrite (space2_not_space1 a b Hab), Hab.
  - cbn. now rewrite (space3_not_space1 a b c Habc), (space3_not_space2 a b c Habc), Habc.
Qed.

(** [strip] leaves nothing of a string of white space. *)
Lemma strip_blank (s : string) : Ui.blank s -> Ui.strip s = EmptyString.
Proof.
  intros Hs. unfold Ui.strip. now rewrite (strip_front_blank s Hs).
Qed.

(** ** Logging in *)

Section StartSession.

Variable str_lower : string -> string.

(** X14. An email that is empty or consists of white space only (spaces,
    tabs, line breaks, no-break spaces and the other white space of
    [str.strip]) is turned down by [start_session] before anything is sent:
    the function returns at once with the login screen still shown and the
    text "Please enter your email", and the module's state is unchanged. *)
Theorem start_session_rejects_blank_email (email name : string) (st : Ui.ui_state) :
  Ui.blank email ->
  Ui.start_session str_lower email name st
  = Ui.Done (Ui.mkScreens true false "Please enter your email", st).
Proof.
  intros Hblank. unfold Ui.start_session.
  rewrite (strip_blank email Hblank). cbn. now rewrite orb_true_r.
Qed.

Ltac split_run H :=
  repeat first
    [ progress cbn in H
    | match type of H with
      | context [match ?x with _ => _ end] => is_var x; destruct x eqn:?
      | context [if ?x then _ else _] => destruct x eqn:?
      | context [Ui.lookup ?k ?d] => destruct (Ui.lookup k d) eqn:?
      end ].

(** X15. When [start_session] lets the user in (the chat screen is shown),
    the email and the name were not blank, the email had an "@" and a ".",
    exactly two requests were sent, the health check and then the request
    for a session, and the user id sent and stored is the email stripped
    and lower-cased; the name sent is the name stripped. *)
Theorem start_session_success (email name : string) (st st' : Ui.ui_state)
    (net : list Ui.reply) (events : list Ui.event) (scr : Ui.screens) :
  Ui.perform (Ui.start_session str_lower email name st) net
  = (events, Ui.Returned (scr, st')) ->
  Ui.chat_visible scr = true ->
  Ui.strip email <> "" /\ Ui.strip name <> "" /\
  Ui.contains "@" email = true /\ Ui.contains "." email = true /\
  events
  = [Ui.Sent (Ui.Get "http://localhost:8000/" [] 2);
     Ui.Sent (Ui.Post "http://localhost:8000/sessions/new"
                [("user_id", Ui.PyStr (str_lower (Ui.strip email)));
                 ("name", Ui.PyStr (Ui.strip name))] 5)] /\
  Ui.current_user_id st' = Ui.PyStr (str_lower (Ui.strip email)) /\
  scr = Ui.mkScreens false true "".
Proof.
  intros Hrun Hchat. unfold Ui.start_session in Hrun.
  destruct (String.eqb email "" || String.eqb (Ui.strip email) "") eqn:He.
  { cbn in Hrun. inversion Hrun; subst. discriminate. }
  destruct (String.eqb name "" || String.eqb (Ui.strip name) "") eqn:Hn.
  { cbn in Hrun. inversion Hrun; subst. discriminate. }
  destruct (negb (Ui.contains "@" email) || negb (Ui.contains "." email)) eqn:Hc.
  { cbn in Hrun. inversion Hrun; subst. discriminate. }
  apply orb_false_iff in He, Hn, Hc.
  destruct He as [_ He], Hn as [_ Hn], Hc as [Hat Hdot].
  apply String.eqb_neq in He, Hn. apply negb_false_iff in Hat, Hdot.
  repeat (split; [assumption |]).
  unfold Ui.check_backend_health, Ui.create_new_session in Hrun.
  split_run Hrun; inversion Hrun; subst; cbn in Hchat; try discriminate.
  repeat split.
Qed.

(** X16. When [start_session] does not let the user in, the login screen
    stays, with an error text that is not empty, and the current session
    id and name are what they were.  If it gave up before sending anything
    the whole state is unchanged; if it gave up after asking for a
    session, the stored user id is already the new one. *)
Theorem start_session_failure (email name : string) (st st' : Ui.ui_state)
    (net : list Ui.reply) (events : list Ui.event) (scr : Ui.screens) :
  Ui.perform (Ui.start_session str_lower email name st) net
  = (events, Ui.Returned (scr, st')) ->
  Ui.chat_visible scr = false ->
  Ui.login_visible scr = true /\ Ui.login_error scr <> "" /\
  Ui.current_session_id st' = Ui.current_session_id st /\
  Ui.current_session_name st' = Ui.current_session_name st /\
  (List.length events <= 1 -> st' = st)%nat /\
  (List.length events = 2 ->
   Ui.current_user_id st' = Ui.PyStr (str_lower (Ui.strip email)))%nat.
Proof.
  intros Hrun Hchat. unfold Ui.start_session in Hrun.
  unfold Ui.check_backend_health, Ui.create_new_session in Hrun.
  split_run Hrun; inversion Hrun; subst; cbn in Hchat; try discriminate;
    cbn; repeat split; try discriminate; try reflexivity; try lia.
Qed.

End StartSession.

Lemma start_session_rejects_blank_email_witness :
  Ui.start_session Ui.ascii_lower
    (String " " (String (ascii_of_nat 9) (String (ascii_of_nat 194)
       (String (ascii_of_nat 160) EmptyString))))
    "Ann" Ui.initial_state
  = Ui.Done (Ui.mkScreens true false "Please enter your email", Ui.initial_state).
Proof.
  apply (start_session_rejects_blank_email Ui.ascii_lower).
  apply Ui.blank1; [reflexivity |].
  apply Ui.blank1; [reflexivity |].
  apply Ui.blank2; [reflexivity |].
  apply Ui.blank_empty.
Defined.

Lemma start_session_success_witness :
  Ui.strip "  Ann@Example.org " <> "" /\ Ui.strip " Ann " <> "" /\
  Ui.contains "@" "  Ann@Example.org " = true /\
  Ui.contains "." "  Ann@Example.org " = true /\
  [Ui.Sent (Ui.Get "http://localhost:8000/" [] 2);
   Ui.Sent (Ui.Post "http://localhost:8000/sessions/new"
              [("user_id", Ui.PyStr "ann@example.org"); ("name", Ui.PyStr "Ann")] 5)]
  = [Ui.Sent (Ui.Get "http://localhost:8000/" [] 2);
     Ui.Sent (Ui.Post "http://localhost:8000/sessions/new"
                [("user_id", Ui.PyStr (Ui.ascii_lower (Ui.strip "  Ann@Example.org ")));
                 ("name", Ui.PyStr (Ui.strip " Ann "))] 5)] /\
  Ui.current_user_id (Ui.mkUi (Ui.PyStr "ann@example.org") (Ui.PyStr "c1")
                        (Ui.PyStr "Session-1"))
  = Ui.PyStr (Ui.ascii_lower (Ui.strip "  Ann@Example.org ")) /\
  Ui.mkScreens false true "" = Ui.mkScreens false true "".
Proof.
  apply (start_session_success Ui.ascii_lower "  Ann@Example.org " " Ann "
           Ui.initial_state _
           [Ui.Response 200 "" (Ui.BodyInvalid "");
            Ui.Response 200 ""
              (Ui.BodyDict [("session_id", Ui.PyStr "c1");
                            ("session_name", Ui.PyStr "Session-1")])]).
  - reflexivity.
  - reflexivity.
Defined.

Lemma start_session_failure_witness :
  Ui.login_visible (Ui.stay "Error: Error: 503") = true /\
  Ui.login_error (Ui.stay "Error: Error: 503") <> "" /\
  Ui.current_session_id
    (Ui.mkUi (Ui.PyStr "ann@example.org") Ui.PyNone Ui.PyNone)
  = Ui.current_session_id Ui.initial_state /\
  Ui.current_session_name
    (Ui.mkUi (Ui.PyStr "ann@example.org") Ui.PyNone Ui.PyNone)
  = Ui.current_session_name Ui.initial_state /\
  (2 <= 1 ->
   Ui.mkUi (Ui.PyStr "ann@example.org") Ui.PyNone Ui.PyNone = Ui.initial_state)%nat /\
  (2 = 2 ->
   Ui.current_user_id (Ui.mkUi (Ui.PyStr "ann@example.org") Ui.PyNone Ui.PyNone)
   = Ui.PyStr (Ui.ascii_lower (Ui.strip "ann@example.org")))%nat.
Proof.
  apply (start_session_failure Ui.ascii_lower "ann@example.org" "Ann"
           Ui.initial_state _
           [Ui.Response 200 "" (Ui.BodyInvalid ""); Ui.Response 503 "" (Ui.BodyInvalid "")]
           [Ui.Sent (Ui.Get "http://localhost:8000/" [] 2);
            Ui.Sent (Ui.Post "http://localhost:8000/sessions/new"
                       [("user_id", Ui.PyStr "ann@example.org"); ("name", Ui.PyStr "Ann")] 5)]).
  - reflexivity.
  - reflexivity.
Defined.

(** ** The API helpers *)

(** X17. [create_new_session] sends one request and, unless what comes
    back is not an [Exception], returns: either with an error text that
    [if error] takes as true and no session id or name, or, only for
    status 200 with a dictionary holding both keys, with the two values
    and no error. *)
Theorem create_new_session_reports (user_id name : string) (r : Ui.reply) :
  r <> Ui.RaisedBaseException ->
  exists session_id session_name error,
    Ui.perform (Ui.create_new_session user_id name) [r]
    = ([Ui.Sent (Ui.Post "http://localhost:8000/sessions/new"
                   [("user_id", Ui.PyStr user_id); ("name", Ui.PyStr name)] 5)],
       Ui.Returned (session_id, session_name, error)) /\
    (Ui.is_error error = true /\ session_id = Ui.PyNone /\ session_name = Ui.PyNone
     \/
     error = None /\
     exists text data,
       r = Ui.Response 200 text (Ui.BodyDict data) /\
       Ui.lookup "session_id" data = Some session_id /\
       Ui.lookup "session_name" data = Some session_name).
Proof.
  intros Hr. destruct r as [status text json | e | e | e |]; try contradiction;
    cbn; try (eexists _, _, _; split; [reflexivity | left; cbn; auto]).
  destruct (Z.eqb_spec status 200) as [-> | Hstatus].
  - destruct json as [data | e | e]; cbn;
      try (eexists _, _, _; split; [reflexivity | left; cbn; auto]).
    destruct (Ui.lookup "session_id" data) as [sid |] eqn:Hsid;
      [| eexists _, _, _; split; [reflexivity | left; cbn; auto]].
    destruct (Ui.lookup "session_name" data) as [nm |] eqn:Hnm;
      [| eexists _, _, _; split; [reflexivity | left; cbn; auto]].
    eexists _, _, _. split; [reflexivity |]. right. split; [reflexivity |].
    exists text, data. auto.
  - eexists _, _, _. split; [reflexivity | left; cbn; auto].
Qed.

Lemma create_new_session_reports_witness :
  exists session_id session_name error,
    Ui.perform (Ui.create_new_session "ann@example.org" "Ann")
      [Ui.Response 200 "" (Ui.BodyDict [("session_id", Ui.PyStr "c1")])]
    = ([Ui.Sent (Ui.Post "http://localhost:8000/sessions/new"
                   [("user_id", Ui.PyStr "ann@example.org"); ("name", Ui.PyStr "Ann")] 5)],
       Ui.Returned (session_id, session_name, error)) /\
    (Ui.is_error error = true /\ session_id = Ui.PyNone /\ session_name = Ui.PyNone
     \/
     error = None /\
     exists text data,
       Ui.Response 200 "" (Ui.BodyDict [("session_id", Ui.PyStr "c1")])
       = Ui.Response 200 text (Ui.BodyDict data) /\
       Ui.lookup "session_id" data = Some session_id /\
       Ui.lookup "session_name" data = Some session_name).
Proof.
  apply (create_new_session_reports "ann@example.org" "Ann").
  discriminate.
Defined.

(** ** Chatting *)

(** X18. Whatever the backend answers (short of something that is not an
    [Exception]), [chat_with_pritam] ends with the history it was given
    plus two entries: the user's message, then one entry of the assistant.
    Without a current user or session nothing is sent and the page is
    shown that final history once.  Otherwise the page is first shown the
    history with the user's message, then exactly one request goes to
    /chat with the current user id, the current session id and the
    message, then the page is shown the final history; when the reply has
    status 200 and a dictionary with the key ai_response, the assistant's
    entry is that value. *)
Theorem chat_with_pritam_appends_two (message : string)
    (history : list Ui.chat_entry) (st : Ui.ui_state) (r : Ui.reply) :
  r <> Ui.RaisedBaseException ->
  let active := Ui.truthy (Ui.current_user_id st) && Ui.truthy (Ui.current_session_id st) in
  let shown := history ++ [Ui.mkChat "user" (Ui.PyStr message)] in
  exists answer,
    let final := shown ++ [Ui.mkChat "assistant" answer] in
    Ui.perform (Ui.chat_with_pritam message history st) [r]
    = (if active
       then [Ui.Showed shown;
             Ui.Sent (Ui.Post "http://localhost:8000/chat"
                        [("user_id", Ui.current_user_id st);
                         ("session_id", Ui.current_session_id st);
                         ("message", Ui.PyStr message)] 30);
             Ui.Showed final]
       else [Ui.Showed final],
       Ui.Returned final) /\
    (active = false -> answer = Ui.PyStr "Error: No active session") /\
    (forall text data v,
       active = true ->
       r = Ui.Response 200 text (Ui.BodyDict data) ->
       Ui.lookup "ai_response" data = Some v ->
       answer = v).
Proof.
  intros Hr. cbn zeta. unfold Ui.chat_with_pritam.
  destruct (Ui.truthy (Ui.current_user_id st)) eqn:Hu; cbn [negb orb andb].
  2:{ eexists. cbn. rewrite <- app_assoc. cbn.
      split; [reflexivity |]. split; [reflexivity | discriminate]. }
  destruct (Ui.truthy (Ui.current_session_id st)) eqn:Hs; cbn [negb orb andb].
  2:{ eexists. cbn. rewrite <- app_assoc. cbn.
      split; [reflexivity |]. split; [reflexivity | discriminate]. }
  unfold Ui.send_message_to_api.
  destruct r as [status text json | e | e | e |]; try contradiction; cbn;
    try (eexists; split; [reflexivity |]; split; [discriminate |];
         intros ? ? ? _ Heq; discriminate Heq).
  destruct (Z.eqb_spec status 200) as [-> | Hstatus]; cbn.
  - destruct json as [data | e | e]; cbn;
      try (eexists; split; [reflexivity |]; split; [discriminate |];
           intros ? ? ? _ Heq; discriminate Heq).
    destruct (Ui.lookup "ai_response" data) as [v |] eqn:Hv; cbn.
    + eexists. split; [reflexivity |]. split; [discriminate |].
      intros text' data' v' _ Heq Hv'. inversion Heq; subst. congruence.
    + eexists. split; [reflexivity |]. split; [discriminate |].
      intros text' data' v' _ Heq Hv'. inversion Heq; subst. congruence.
  - eexists. split; [reflexivity |]. split; [discriminate |].
    intros text' data' v' _ Heq. inversion Heq. congruence.
Qed.

Lemma chat_with_pritam_appends_two_witness :
  let st := Ui.mkUi (Ui.PyStr "ann@example.org") (Ui.PyStr "c1") (Ui.PyStr "Session-1") in
  let r := Ui.Response 200 "" (Ui.BodyDict [("ai_response", Ui.PyStr "[Looks down] Hi.")]) in
  let active := Ui.truthy (Ui.current_user_id st) && Ui.truthy (Ui.current_session_id st) in
  let shown := [] ++ [Ui.mkChat "user" (Ui.PyStr "Hello")] in
  exists answer,
    let final := shown ++ [Ui.mkChat "assistant" answer] in
    Ui.perform (Ui.chat_with_pritam "Hello" [] st) [r]
    = (if active
       then [Ui.Showed shown;
             Ui.Sent (Ui.Post "http://localhost:8000/chat"
                        [("user_id", Ui.current_user_id st);
                         ("session_id", Ui.current_session_id st);
                         ("message", Ui.PyStr "Hello")] 30);
             Ui.Showed final]
       else [Ui.Showed final],
       Ui.Returned final) /\
    (active = false -> answer = Ui.PyStr "Error: No active session") /\
    (forall text data v,
       active = true ->
       r = Ui.Response 200 text (Ui.BodyDict data) ->
       Ui.lookup "ai_response" data = Some v ->
       answer = v).
Proof.
  apply (chat_with_pritam_appends_two "Hello" []
           (Ui.mkUi (Ui.PyStr "ann@example.org") (Ui.PyStr "c1") (Ui.PyStr "Session-1"))
           (Ui.Response 200 "" (Ui.BodyDict [("ai_response", Ui.PyStr "[Looks down] Hi.")]))).
  discriminate.
Defined.

(** X20. [check_backend_health] sends one GET to the root of the backend
    and always returns, whatever comes back, also what is not an
    [Exception]; it returns True exactly when a response with status 200
    came back. *)
Theorem check_backend_health_total (r : Ui.reply) :
  exists healthy,
    Ui.perform Ui.check_backend_health [r]
    = ([Ui.Sent (Ui.Get "http://localhost:8000/" [] 2)], Ui.Returned healthy) /\
    (healthy = true <-> exists text json, r = Ui.Response 200 text json).
Proof.
  destruct r as [status text json | e | e | e |]; cbn;
    try (exists false; split; [reflexivity |]; split;
         [discriminate | intros (? & ? & Heq); discriminate Heq]).
  exists (status =? 200). split; [reflexivity |]. split.
  - intros Heq. apply Z.eqb_eq in Heq. subst. eauto.
  - intros (text' & json' & Heq). inversion Heq. reflexivity.
Qed.
